(** * testcafe-testapp: the page objects, helpers and role fixtures of the
    end-to-end suite, embedded as functions over an explicit browser state.

    Conventions of the embedding
    - A JavaScript string is a [string]; [length] counts its characters.
    - [Date.now()] is a parameter [now : Z] (milliseconds), and the text a
      template literal prints for it is its decimal notation, [pretty now].
    - [Math.random().toString(36).substring(7)] is a parameter
      [suffix : string].
    - An [async] method that can reject, or a TestCafe action that can fail
      the test, returns a [result]: [Ok v] or [Throw msg].
    - Fixed delays ([t.wait]) and the spinner wait do not change the state:
      the page is observed once it has settled. *)

From Stdlib Require Import ZArith String Ascii List Bool Lia.
From stdpp Require Import gmap strings list pretty.

Set Default Proof Using "Type".

(** ** Results of actions that may throw *)

Inductive result (A : Type) : Type :=
| Ok (a : A)
| Throw (msg : string).
Arguments Ok {A} a.
Arguments Throw {A} msg.

(** [result] with stdpp's monad notation: [x ← c; k] runs [c] and, unless it
    threw, continues with [k]. *)
#[global] Instance result_ret : MRet result := fun A a => Ok a.
#[global] Instance result_bind : MBind result := fun A B k r =>
  match r with
  | Ok a => k a
  | Throw msg => Throw msg
  end.

(** ** The string primitives the sources use *)

Module Str.

(** [s.startsWith(p)], returning what follows the prefix. *)
Fixpoint strip_prefix (p s : string) : option string :=
  match p with
  | EmptyString => Some s
  | String a p' =>
      match s with
      | EmptyString => None
      | String b s' => if Ascii.eqb a b then strip_prefix p' s' else None
      end
  end.

Definition starts_with (p s : string) : bool :=
  match strip_prefix p s with Some _ => true | None => false end.

(** [hay.includes(needle)]; also what [Selector.withText(needle)] tests on
    an element's text when [needle] is a string. *)
Fixpoint includes (needle hay : string) : bool :=
  starts_with needle hay ||
  match hay with
  | EmptyString => false
  | String _ hay' => includes needle hay'
  end.

Definition is_empty (s : string) : bool :=
  match s with EmptyString => true | String _ _ => false end.

(** Line terminators: the characters [.] of a regular expression refuses.
    (U+2028 and U+2029 lie outside one-byte characters.) *)
Definition line_terminator (c : ascii) : bool :=
  Ascii.eqb c "010"%char || Ascii.eqb c "013"%char.

(** The longest prefix without a line terminator: what a greedy [.*]
    consumes. *)
Fixpoint take_line (s : string) : string :=
  match s with
  | EmptyString => EmptyString
  | String c s' => if line_terminator c then EmptyString else String c (take_line s')
  end.

(** What follows that prefix. *)
Fixpoint drop_line (s : string) : string :=
  match s with
  | EmptyString => EmptyString
  | String c s' => if line_terminator c then s else drop_line s'
  end.

Fixpoint no_line_terminator (s : string) : bool :=
  match s with
  | EmptyString => true
  | String c s' => negb (line_terminator c) && no_line_terminator s'
  end.

(** [s.split(sep)] for a one-character separator. *)
Fixpoint split_go (sep : ascii) (cur : string) (s : string) : list string :=
  match s with
  | EmptyString => [String.rev cur]
  | String c s' =>
      if Ascii.eqb c sep then String.rev cur :: split_go sep EmptyString s'
      else split_go sep (String c cur) s'
  end.

Definition split (sep : ascii) (s : string) : list string :=
  split_go sep EmptyString s.

(** [parts.join(sep)]. *)
Fixpoint join (sep : string) (parts : list string) : string :=
  match parts with
  | [] => ""
  | [p] => p
  | p :: rest => p +:+ sep +:+ join sep rest
  end.

(** [f] holds of every character of [s]. *)
Fixpoint all (f : ascii -> bool) (s : string) : bool :=
  match s with
  | EmptyString => true
  | String c s' => f c && all f s'
  end.

(** None of the characters of [s] is [sep]. *)
Definition free_of (sep : ascii) (s : string) : bool :=
  all (fun c => negb (Ascii.eqb c sep)) s.

End Str.

(** ** helpers/test-helpers.ts: [TestHelpers] *)

Module TestHelpers.

Definition generateEmail (now : Z) (suffix : string) : string :=
  "test-" +:+ pretty now +:+ "-" +:+ suffix +:+ "@example.com".

Definition generateName (now : Z) : string :=
  "Test User " +:+ pretty now.

Definition generatePassword (now : Z) : string :=
  "TestPass" +:+ pretty now +:+ "!".

Definition generateTodoText (now : Z) (suffix : string) : string :=
  "Test Todo " +:+ pretty now +:+ " - " +:+ suffix.

(** [getTestDataPattern().test(s)] for the pattern [/^Test (Todo|User)/]:
    anchored at the start, the literal [Test ] and then one of the two
    alternatives; case-sensitive (no [i] flag). *)
Definition getTestDataPattern (s : string) : bool :=
  match Str.strip_prefix "Test " s with
  | Some rest => Str.starts_with "Todo" rest || Str.starts_with "User" rest
  | None => false
  end.

End TestHelpers.

(** ** helpers/test-helpers.ts: [PerformanceHelper] *)

Module PerformanceHelper.

(** [private static measurements: Map<string, number>]: the process-wide
    map is threaded through the calls. *)
Definition no_start (key : string) : string :=
  "No start time found for key: " +:+ key.

Definition start (key : string) (now : Z) (measurements : gmap string Z)
  : gmap string Z :=
  <[key := now]> measurements.

(** [end] is a keyword here, hence [end_]. The test [!startTime] holds for
    [undefined] (no entry) and for the number 0. *)
Definition end_ (key : string) (now : Z) (measurements : gmap string Z)
  : result (Z * gmap string Z) :=
  match measurements !! key with
  | None => Throw (no_start key)
  | Some startTime =>
      if (startTime =? 0)%Z then Throw (no_start key)
      else Ok ((now - startTime)%Z, delete key measurements)
  end.

End PerformanceHelper.


(** ** TestCafe selectors

    A selector denotes the elements it matches, in document order.
    [exists] holds when it matches one; reading a property ([innerText],
    [getAttribute]) or acting ([t.click]) takes the first match and fails
    the test when there is none. *)

Module Selector.

Definition no_match : string :=
  "The specified selector does not match any element in the DOM tree.".

(** [t.typeText] refuses an empty text. *)
Definition empty_text : string :=
  "The text argument is expected to be a non-empty string.".

Definition exists_ {A : Type} (matched : list A) : bool :=
  match matched with [] => false | _ :: _ => true end.

Definition first {A : Type} (matched : list A) : result A :=
  match matched with [] => Throw no_match | x :: _ => Ok x end.

Definition nth {A : Type} (index : nat) (matched : list A) : list A :=
  match matched !! index with Some x => [x] | None => [] end.

Definition count {A : Type} (matched : list A) : nat := length matched.

End Selector.

(** ** page-objects/base.page.ts: [BasePage], and the API tests' [ApiClient] *)

Module BasePage.

Record t : Type := { baseUrl : string }.

(** [constructor(baseUrl: string = "http://localhost:3001")]; [None] is a
    call without the argument. *)
Definition new (baseUrl : option string) : t :=
  {| baseUrl := default "http://localhost:3001" baseUrl |}.

(** The test controller, as far as navigation goes: the URL the browser was
    last sent to. *)
Record controller : Type := { href : string }.

Definition navigateTo (url : string) (_ : controller) : controller :=
  {| href := url |}.

(** [navigate(path: string = "")]. *)
Definition navigate (this : t) (path : option string) (c : controller)
  : controller :=
  navigateTo (baseUrl this +:+ default "" path) c.



(** [elementHasClass(selector, className)]; [matched] holds the [class]
    attribute of each element the selector matches, [None] ([null]) where
    the attribute is absent. *)
Definition elementHasClass (matched : list (option string)) (className : string)
  : result bool :=
  classes ← Selector.first matched;
  Ok (match classes with
      | Some classes =>
          if Str.is_empty classes then false
          else bool_decide (className ∈ Str.split " " classes)
      | None => false
      end).

End BasePage.

Module ApiClient.

Record t : Type := { baseUrl : string }.

Definition new (baseUrl : option string) : t :=
  {| baseUrl := default "http://localhost:3000" baseUrl |}.

(** The URL [mutate(procedure, input)] posts to. *)
Definition mutate_url (this : t) (procedure : string) : string :=
  baseUrl this +:+ "/trpc/" +:+ procedure.

End ApiClient.

(** ** page-objects/dashboard.page.ts: [DashboardPage] *)

Module DashboardPage.

(** The document as the selectors of this page object read it: the text of
    each [h1] and of each [p], in document order. *)
Record document : Type := { h1 : list string; p : list string }.

(** [Selector("h1").withText("Dashboard")]. *)
Definition pageTitle (d : document) : list string :=
  List.filter (Str.includes "Dashboard") (h1 d).

(** [Selector("p").withText(/Welcome/)]. *)
Definition welcomeMessage (d : document) : list string :=
  List.filter (Str.includes "Welcome") (p d).

Definition isLoaded (d : document) : bool :=
  Selector.exists_ (pageTitle d).

Definition getWelcomeMessage (d : document) : result string :=
  Selector.first (welcomeMessage d).

(** [message.match(/Welcome (.+)/)], giving the capture [match[1]]: at the
    leftmost position where the literal [Welcome ] is followed by at least
    one character other than a line terminator, the group takes the rest of
    that line. *)
Fixpoint match_Welcome (message : string) : option string :=
  let here :=
    match Str.strip_prefix "Welcome " message with
    | Some rest =>
        let name := Str.take_line rest in
        if Str.is_empty name then None else Some name
    | None => None
    end in
  match here with
  | Some name => Some name
  | None =>
      match message with
      | EmptyString => None
      | String _ message' => match_Welcome message'
      end
  end.

Definition getUserName (d : document) : result (option string) :=
  message ← getWelcomeMessage d;
  Ok (match_Welcome message).

(** [if (expectedName)]: an omitted argument and the empty string are both
    falsy. *)
Definition truthy (s : option string) : bool :=
  match s with
  | Some s => negb (Str.is_empty s)
  | None => false
  end.

(** [userName === expectedName], with [userName : string | null] and
    [expectedName : string | undefined]. *)
Definition strict_eq (userName expectedName : option string) : bool :=
  match userName, expectedName with
  | Some a, Some b => bool_decide (a = b)
  | _, _ => false
  end.

Definition verifyUserLoggedIn (expectedName : option string) (d : document)
  : result bool :=
  if negb (isLoaded d) then Ok false
  else if truthy expectedName then
    userName ← getUserName d;
    Ok (strict_eq userName expectedName)
  else Ok true.

End DashboardPage.

(** ** The todo list: data model and application under test *)

Module TodoApp.

(** db schema [todo]: [id] integer primary key, auto-increment; [text] not
    null; [completed] boolean, default false. *)
Record Todo : Type := { id : Z; text : string; completed : bool }.

(** The server's table with its auto-increment counter, and the text held by
    the page's input. *)
Record state : Type := {
  todos : list Todo;
  next_id : Z;
  newTodoText : string
}.

Definition initial : state :=
  {| todos := []; next_id := 1; newTodoText := "" |}.

(** Modelled from the spec: the todo router is missing from the sources.
    [todo.getAll] returns the array of todos. *)
Definition getAll (s : state) : list Todo := todos s.

(** Modelled from the spec: the todo router is missing from the sources.
    [todo.create({text})] returns the created todo, with a server-assigned
    auto-increment id and [completed] false, and rejects an empty text
    (status 400 and above, here [None]). *)
Definition create (txt : string) (s : state) : option state :=
  if Str.is_empty txt then None
  else Some {| todos := todos s ++ [{| id := next_id s; text := txt; completed := false |}];
               next_id := (next_id s + 1)%Z;
               newTodoText := newTodoText s |}.

(** Modelled from the spec: the todo router is missing from the sources.
    [todo.toggle({id, completed})] stores the given flag on the todo of that
    id. *)
Definition set_completed (i : Z) (flag : bool) (x : Todo) : Todo :=
  if (id x =? i)%Z then {| id := id x; text := text x; completed := flag |} else x.

(** Modelled from the spec: the todo router is missing from the sources;
    see [set_completed]. *)
Definition toggle (i : Z) (flag : bool) (s : state) : state :=
  {| todos := map (set_completed i flag) (todos s);
     next_id := next_id s;
     newTodoText := newTodoText s |}.

(** Modelled from the spec: the todo router is missing from the sources.
    [todo.delete({id})] destroys the todo of that id. *)
Definition delete (i : Z) (s : state) : state :=
  {| todos := List.filter (fun x => negb (id x =? i)%Z) (todos s);
     next_id := next_id s;
     newTodoText := newTodoText s |}.

(** A row [ul li] as the selectors of the page object read it: the text and
    class of its [label] and the [aria-checked] attribute of its
    [button[role="checkbox"]]; each row also holds one
    [button[aria-label="Delete todo"]]. *)
Record li : Type := {
  label_text : string;
  label_class : string;
  aria_checked : option string
}.

(** Modelled from the spec: the todos route is missing from the sources. A
    todo is rendered as one row: its text in the label, its completion in
    the checkbox and, as the page object's [todoHasStrikethrough] reads it,
    in the label's class. *)
Definition render (x : Todo) : li :=
  {| label_text := text x;
     label_class := if completed x then "line-through" else "";
     aria_checked := Some (if completed x then "true" else "false") |}.

(** Modelled from the spec: the todos route is missing from the sources. The
    list shows one row per todo, in the order of [todo.getAll]. *)
Definition document (s : state) : list li := map render (getAll s).

(** The input after [t.typeText(todoInput, txt, { replace: true })]. *)
Definition typeText (txt : string) (s : state) : state :=
  {| todos := todos s; next_id := next_id s; newTodoText := txt |}.

(** Modelled from the spec: the todos route is missing from the sources. The
    Add button submits the input's text to [todo.create] and empties the
    input; on an empty input it does nothing. *)
Definition click_add (s : state) : state :=
  match create (newTodoText s) s with
  | Some s' => typeText "" s'
  | None => s
  end.

(** Modelled from the spec: the todos route is missing from the sources. The
    checkbox of a row calls [todo.toggle] with the row's id and the negated
    flag. *)
Definition click_checkbox (index : nat) (s : state) : state :=
  match todos s !! index with
  | Some x => toggle (id x) (negb (completed x)) s
  | None => s
  end.

(** Modelled from the spec: the todos route is missing from the sources. The
    delete button of a row calls [todo.delete] with the row's id. *)
Definition click_delete (index : nat) (s : state) : state :=
  match todos s !! index with
  | Some x => delete (id x) s
  | None => s
  end.

(** The todo a click on its checkbox leaves behind. *)
Definition flip (x : Todo) : Todo :=
  {| id := id x; text := text x; completed := negb (completed x) |}.

(** The invariant the auto-increment key maintains: ids are pairwise
    distinct and below the counter. *)
Definition wf (s : state) : Prop :=
  NoDup (map id (todos s)) /\ Forall (fun x => (id x < next_id s)%Z) (todos s).

End TodoApp.

(** ** page-objects/todos.page.ts: [TodosPage] *)

Module TodosPage.

Import TodoApp.

(** [todoItems = Selector("ul li")], each row with its position. *)
Definition todoItems (doc : list li) : list (nat * li) :=
  imap (fun i row => (i, row)) doc.

(** [waitForTodosLoad]: the spinner [svg.animate-spin] is absent from a
    settled page, so the guarded wait is skipped. *)
Definition waitForTodosLoad (s : state) : result unit := Ok ().

Definition addTodo (txt : string) (s : state) : result state :=
  if Str.is_empty txt then Throw Selector.empty_text
  else
    let s := click_add (typeText txt s) in
    _ ← waitForTodosLoad s;
    Ok s.

Definition getTodoCount (doc : list li) : nat :=
  Selector.count (todoItems doc).

(** [todoItems.find("label").withText(text).parent("li")]: the rows whose
    label contains [text]. *)
Definition getTodoByText (txt : string) (doc : list li) : list (nat * li) :=
  List.filter (fun r => Str.includes txt (label_text (snd r))) (todoItems doc).

Definition toggleTodoByText (txt : string) (s : state) : result state :=
  todo ← Selector.first (getTodoByText txt (document s));
  Ok (click_checkbox (fst todo) s).

Definition deleteTodoByText (txt : string) (s : state) : result state :=
  todo ← Selector.first (getTodoByText txt (document s));
  Ok (click_delete (fst todo) s).

Definition isTodoCompleted (index : nat) (doc : list li) : result bool :=
  todo ← Selector.first (Selector.nth index (todoItems doc));
  let ariaChecked := aria_checked (snd todo) in
  Ok (bool_decide (ariaChecked = Some "true")).

Definition todoExists (txt : string) (doc : list li) : bool :=
  Selector.exists_ (getTodoByText txt doc).

(** The loop [for (let i = 0; i < count; i++)] of [getCompletedTodosCount],
    with [remaining = count - i]. *)
Fixpoint completed_loop (remaining i completedCount : nat) (doc : list li)
  : result nat :=
  match remaining with
  | O => Ok completedCount
  | S remaining' =>
      b ← isTodoCompleted i doc;
      completed_loop remaining' (S i)
        (if b : bool then S completedCount else completedCount) doc
  end.

Definition getCompletedTodosCount (doc : list li) : result nat :=
  let count := getTodoCount doc in
  completed_loop count 0 0 doc.

Definition getIncompleteTodosCount (doc : list li) : result Z :=
  let total := getTodoCount doc in
  completed ← getCompletedTodosCount doc;
  Ok (Z.of_nat total - Z.of_nat completed)%Z.

Definition getTodoText (index : nat) (doc : list li) : result string :=
  todo ← Selector.first (Selector.nth index (todoItems doc));
  Ok (label_text (snd todo)).

(** The loop of [getAllTodoTexts], with [remaining = count - i]. *)
Fixpoint texts_loop (remaining i : nat) (texts : list string) (doc : list li)
  : result (list string) :=
  match remaining with
  | O => Ok texts
  | S remaining' =>
      txt ← getTodoText i doc;
      texts_loop remaining' (S i) (texts ++ [txt]) doc
  end.

Definition getAllTodoTexts (doc : list li) : result (list string) :=
  let count := getTodoCount doc in
  texts_loop count 0 [] doc.

Definition toggleTodo (index : nat) (s : state) : result state :=
  todo ← Selector.first (Selector.nth index (todoItems (document s)));
  Ok (click_checkbox (fst todo) s).

Definition deleteTodo (index : nat) (s : state) : result state :=
  todo ← Selector.first (Selector.nth index (todoItems (document s)));
  Ok (click_delete (fst todo) s).

End TodosPage.

(** ** routes/login.tsx and page-objects/login.page.ts: [LoginPage] *)

Module LoginPage.

(** The login route: which form is shown ([useState(false)] for
    [showSignIn]), the values of the inputs, the validation messages
    rendered as [p] elements of class [text-red-500], and the pathname. *)
Record page : Type := {
  pathname : string;
  showSignIn : bool;
  nameInput : string;
  emailInput : string;
  passwordInput : string;
  errorMessage : list string
}.

(** [open()] for a visitor without a session: [beforeLoad] does not
    redirect and the route mounts with the sign-up form. *)
Definition open : page :=
  {| pathname := "/login"; showSignIn := false; nameInput := "";
     emailInput := ""; passwordInput := ""; errorMessage := [] |}.

Definition on_login (pg : page) : bool := bool_decide (pathname pg = "/login").

(** [h1] with text [Create Account], respectively [Welcome Back]. *)
Definition isOnSignUpForm (pg : page) : bool :=
  on_login pg && negb (showSignIn pg).

Definition isOnSignInForm (pg : page) : bool :=
  on_login pg && showSignIn pg.

(** The switch button mounts the other form, with empty inputs. *)
Definition click_switchToSignUp (pg : page) : page :=
  {| pathname := pathname pg; showSignIn := false; nameInput := "";
     emailInput := ""; passwordInput := ""; errorMessage := [] |}.

Definition switchToSignUp (pg : page) : page :=
  if isOnSignInForm pg then click_switchToSignUp pg else pg.

Inductive field : Type := Name | Email | Password.

(** [t.typeText(input, text, { replace: true })]: fails on an empty text and
    when the input is not in the document. *)
Definition typeText (f : field) (txt : string) (pg : page) : result page :=
  if Str.is_empty txt then Throw Selector.empty_text
  else if negb (on_login pg) then Throw Selector.no_match
  else
    match f with
    | Name =>
        if showSignIn pg then Throw Selector.no_match
        else Ok {| pathname := pathname pg; showSignIn := showSignIn pg;
                   nameInput := txt; emailInput := emailInput pg;
                   passwordInput := passwordInput pg;
                   errorMessage := errorMessage pg |}
    | Email =>
        Ok {| pathname := pathname pg; showSignIn := showSignIn pg;
              nameInput := nameInput pg; emailInput := txt;
              passwordInput := passwordInput pg;
              errorMessage := errorMessage pg |}
    | Password =>
        Ok {| pathname := pathname pg; showSignIn := showSignIn pg;
              nameInput := nameInput pg; emailInput := emailInput pg;
              passwordInput := txt; errorMessage := errorMessage pg |}
    end.

(** The check [t.typeText] makes of its text when the command is created:
    in a chain of commands every text is checked, in the order written,
    before the first command of the chain runs. *)
Definition check_text (txt : string) : result unit :=
  if Str.is_empty txt then Throw Selector.empty_text else Ok ().

Definition fillSignUpForm (name email password : string) (pg : page)
  : result page :=
  let pg := switchToSignUp pg in
  _ ← check_text name;
  _ ← check_text email;
  _ ← check_text password;
  pg ← typeText Name name pg;
  pg ← typeText Email email pg;
  typeText Password password pg.

Definition getCurrentPath (pg : page) : string := pathname pg.

Definition hasError (pg : page) : bool := Selector.exists_ (errorMessage pg).

Section Application.

(** What the sources leave open: which strings are syntactically valid
    email addresses, whether the auth server accepts a sign-up, and what
    the sign-in form does on submit. *)
Variable valid_email : string -> bool.
Variable accepts : string -> string -> string -> bool.
Variable submit_sign_in : page -> page.

(** Modelled from the spec: the sign-up form component is missing from the
    sources. It validates the three fields, in the order name, email,
    password; the minimum lengths and the messages are those the
    authentication tests expect. *)
Definition validate (name email password : string) : list string :=
  (if (String.length name <? 2)%nat then ["Name must be at least 2 characters"] else []) ++
  (if valid_email email then [] else ["Invalid email address"]) ++
  (if (String.length password <? 8)%nat then ["Password must be at least 8 characters"] else []).

(** Modelled from the spec: the sign-up form component is missing from the
    sources. On submit, with a validation failure it renders the messages
    and stays on the path; otherwise it signs up and, once the server
    accepts, navigates to [/dashboard]. *)
Definition submit_sign_up (pg : page) : page :=
  match validate (nameInput pg) (emailInput pg) (passwordInput pg) with
  | [] =>
      if accepts (nameInput pg) (emailInput pg) (passwordInput pg)
      then {| pathname := "/dashboard"; showSignIn := false; nameInput := "";
              emailInput := ""; passwordInput := ""; errorMessage := [] |}
      else {| pathname := pathname pg; showSignIn := showSignIn pg;
              nameInput := nameInput pg; emailInput := emailInput pg;
              passwordInput := passwordInput pg; errorMessage := [] |}
  | errors =>
      {| pathname := pathname pg; showSignIn := showSignIn pg;
         nameInput := nameInput pg; emailInput := emailInput pg;
         passwordInput := passwordInput pg; errorMessage := errors |}
  end.

(** [submitForm()]: clicks the submit button of the form that is shown. *)
Definition submitForm (pg : page) : result page :=
  let isSignUp := isOnSignUpForm pg in
  if isSignUp then Ok (submit_sign_up pg)
  else if isOnSignInForm pg then Ok (submit_sign_in pg)
  else Throw Selector.no_match.

End Application.

Section SignUp.

Variable valid_email : string -> bool.
Variable accepts : string -> string -> string -> bool.

(** [signUp(name, email, password)]: the three [typeText] and the click on
    the sign-up button, chained on one controller. *)
Definition signUp (name email password : string) (pg : page) : result page :=
  let pg := switchToSignUp pg in
  _ ← check_text name;
  _ ← check_text email;
  _ ← check_text password;
  pg ← typeText Name name pg;
  pg ← typeText Email email pg;
  pg ← typeText Password password pg;
  if isOnSignUpForm pg then Ok (submit_sign_up valid_email accepts pg)
  else Throw Selector.no_match.

End SignUp.

End LoginPage.

(** ** roles/user-roles.ts and packages/auth: the guest role *)

Module Browser.

(** A cookie of the jar; [httpOnly] cookies are those the auth server sets
    ([defaultCookieAttributes: { httpOnly: true }]). *)
Record cookie : Type := {
  name : string;
  value : string;
  path : string;
  httpOnly : bool
}.

Record state : Type := {
  localStorage : gmap string string;
  cookies : list cookie
}.

Definition readable (c : cookie) : bool :=
  negb (httpOnly c) && bool_decide (path c = "/").

Definition pair_of (c : cookie) : string :=
  if Str.is_empty (name c) then value c else name c +:+ "=" +:+ value c.

(** The getter of [document.cookie] on a document at path [/]: the pairs of
    the cookies a script may read, joined by [; ]. *)
Definition document_cookie (st : state) : string :=
  Str.join "; " (map pair_of (List.filter readable (cookies st))).

Fixpoint drop_spaces (s : string) : string :=
  match s with
  | String " " s' => drop_spaces s'
  | _ => s
  end.

Definition trim (s : string) : string :=
  String.rev (drop_spaces (String.rev (drop_spaces s))).

(** Splits at the first [=]; [None] when there is none. *)
Fixpoint cut_eq (s : string) : option (string * string) :=
  match s with
  | EmptyString => None
  | String c s' =>
      if Ascii.eqb c "=" then Some (EmptyString, s')
      else match cut_eq s' with
           | Some (l, r) => Some (String c l, r)
           | None => None
           end
  end.

Definition same_key (n p : string) (c : cookie) : bool :=
  bool_decide (name c = n) && bool_decide (path c = p).

(** The setter of [document.cookie]. The first segment is the pair, the
    others are attributes; [path] defaults to the document's. An [expires]
    attribute is taken as a date that is not in the future, as are all the
    dates this code writes (the current instant, the epoch): the assignment
    then removes the cookie of that name and path. Attribute names are
    matched as this code writes them, in lower case. A script can neither
    replace nor remove an [httpOnly] cookie, and the cookies it creates are
    not [httpOnly]. *)
Definition assign_cookie (s : string) (st : state) : state :=
  match Str.split ";" s with
  | [] => st
  | nv :: attrs =>
      let attrs := map trim attrs in
      let '(n, v) :=
        match cut_eq nv with
        | Some (l, r) => (trim l, trim r)
        | None => (EmptyString, trim nv)
        end in
      let p :=
        match omap (Str.strip_prefix "path=") attrs with
        | p :: _ => p
        | [] => "/"
        end in
      let expired := existsb (Str.starts_with "expires=") attrs in
      if Str.is_empty n && Str.is_empty v then st
      else if existsb (fun c => same_key n p c && httpOnly c) (cookies st) then st
      else
        let others := List.filter (fun c => negb (same_key n p c)) (cookies st) in
        {| localStorage := localStorage st;
           cookies :=
             if expired then others
             else others ++ [{| name := n; value := v; path := p; httpOnly := false |}] |}
  end.

Definition localStorage_clear (st : state) : state :=
  {| localStorage := ∅; cookies := cookies st |}.

(** A cookie name as a script writes it: not empty and without [;], [=] or
    space. *)
Definition name_ok (n : string) : bool :=
  negb (Str.is_empty n) && Str.free_of ";" n && Str.free_of "=" n
  && Str.free_of " " n.

(** A cookie value without [;] and on one line. *)
Definition value_ok (v : string) : bool :=
  Str.free_of ";" v && Str.no_line_terminator v.

Definition key (c : cookie) : string * string := (name c, path c).

(** A jar holds one cookie per name and path; here also the cookies a script
    can read have plain names and values. *)
Definition jar_ok (jar : list cookie) : Prop :=
  NoDup (map key jar) /\
  Forall (fun c => readable c = true ->
                   name_ok (name c) = true /\ value_ok (value c) = true) jar.

End Browser.

Module Roles.

Import Browser.

(** [c.replace(/^ +/, "")]. *)
Definition replace_leading_spaces (c : string) : string := drop_spaces c.

(** [c.replace(/=.*/, replacement)]: from the first [=] to the end of its
    line. *)
Fixpoint replace_eq_rest (replacement : string) (c : string) : string :=
  match c with
  | EmptyString => EmptyString
  | String a c' =>
      if Ascii.eqb a "=" then
        replacement +:+ Str.drop_line c'
      else String a (replace_eq_rest replacement c')
  end.

(** The function [guestUser] and [logout] evaluate in the page; [utc] is
    [new Date().toUTCString()]. *)
Definition clear_authentication (utc : string) (st : state) : state :=
  let st := localStorage_clear st in
  fold_left
    (fun st c =>
       assign_cookie
         (replace_eq_rest ("=;expires=" +:+ utc +:+ ";path=/")
            (replace_leading_spaces c)) st)
    (Str.split ";" (document_cookie st)) st.

(** [guestUser = Role(baseUrl + "/", ...)]: the initialization routine, run
    on the document at [/]. *)
Definition guestUser (utc : string) (st : state) : state :=
  clear_authentication utc st.

End Roles.

(** ** helpers/test-helpers.ts: [WaitConditions] *)

Module WaitConditions.




End WaitConditions.

(** ** helpers/test-helpers.ts: [CookieHelper]; roles/user-roles.ts: [logout] *)

Module CookieHelper.

Import Browser.

Definition getCookies (st : state) : string := document_cookie st.

(** [eqPos > -1 ? cookie.substr(0, eqPos) : cookie]. *)
Definition name_of (cookie : string) : string :=
  match cut_eq cookie with
  | Some (l, _) => l
  | None => cookie
  end.

(** [clearAllCookies]: [document.cookie] is read once, then one assignment
    per segment. *)
Definition clearAllCookies (st : state) : state :=
  fold_left
    (fun st cookie =>
       assign_cookie
         (name_of cookie +:+ "=; expires=Thu, 01 Jan 1970 00:00:00 UTC; path=/;") st)
    (Str.split ";" (document_cookie st)) st.

End CookieHelper.

Module Session.

(** [logout(t)]: the statements of the guest role, then the navigation to
    the home page. *)
Definition logout (utc : string) (st : Browser.state) (c : BasePage.controller)
  : Browser.state * BasePage.controller :=
  (Roles.clear_authentication utc st,
   BasePage.navigateTo "http://localhost:3001/" c).

End Session.

(** ** page-objects/home.page.ts: [HomePage] *)

Module HomePage.

(** A [section] as the selectors of this page object read it: its text, the
    [class] attribute of each [div] inside it and the text of each [span]
    inside it. *)
Record section : Type := {
  section_text : string;
  div_class : list (option string);
  span_text : list string
}.

(** The document: the text of each [pre.overflow-x-auto], the sections and
    the text of each [h2], in document order. *)
Record document : Type := {
  pre : list string;
  sections : list section;
  h2 : list string
}.

Definition titleAsciiArt (d : document) : list string := pre d.

(** [Selector("section").withText("API Status")]. *)
Definition apiStatusSection (d : document) : list section :=
  List.filter (fun s => Str.includes "API Status" (section_text s)) (sections d).

(** The pattern [/bg-(green|red)-500/], tested on a [class] attribute. *)
Definition status_class (cls : option string) : bool :=
  match cls with
  | Some cls => Str.includes "bg-green-500" cls || Str.includes "bg-red-500" cls
  | None => false
  end.

Definition apiStatusIndicator (d : document) : list (option string) :=
  List.filter status_class (concat (map div_class (apiStatusSection d))).

Definition apiStatusText (d : document) : list string :=
  concat (map span_text (apiStatusSection d)).

Definition isLoaded (d : document) : bool :=
  Selector.exists_ (titleAsciiArt d) && Selector.exists_ (apiStatusSection d).

Definition getApiStatus (d : document) : result string :=
  Selector.first (apiStatusText d).

Definition isApiConnected (d : document) : result bool :=
  status ← getApiStatus d;
  Ok (Str.includes "Connected" status).

(** [t.expect(selector.exists).ok({ timeout })] on a settled page. *)
Definition waitForElement {A : Type} (matched : list A) : result unit :=
  if Selector.exists_ matched then Ok ()
  else Throw "AssertionError: expected false to be truthy".

Definition waitForApiReady (d : document) : result unit :=
  _ ← waitForElement (apiStatusIndicator d);
  statusText ← getApiStatus d;
  if negb (Str.includes "Connected" statusText)
  then Throw "API is not connected"
  else Ok ().

Definition verifyTitleDisplayed (d : document) : result bool :=
  let exists_ := Selector.exists_ (titleAsciiArt d) in
  if negb exists_ then Ok false
  else
    txt ← Selector.first (titleAsciiArt d);
    Ok (50 <? String.length txt).

(** The loop of [getSectionHeadings], with [remaining = count - i]. *)
Fixpoint headings_loop (remaining i : nat) (titles : list string) (d : document)
  : result (list string) :=
  match remaining with
  | O => Ok titles
  | S remaining' =>
      txt ← Selector.first (Selector.nth i (h2 d));
      headings_loop remaining' (S i) (titles ++ [txt]) d
  end.

Definition getSectionHeadings (d : document) : result (list string) :=
  let count := Selector.count (h2 d) in
  headings_loop count 0 [] d.

End HomePage.

(** ** TestCafe roles: how [guestUser] is run *)

Module Role.

Import Browser.






End Role.

(** * Properties *)

(** ** Facts on results and strings *)

Lemma bind_Ok {A B : Type} (r : result A) (k : A -> result B) (b : B) :
  r ≫= k = Ok b -> exists a, r = Ok a /\ k a = Ok b.
Proof. destruct r as [a|msg]; simpl; [eauto | discriminate]. Qed.

Module StrFacts.

Import Str.

Lemma strip_prefix_app (p s : string) : strip_prefix p (p +:+ s) = Some s.
Proof.
  induction p as [|a p IH]; simpl; [reflexivity|].
  rewrite Ascii.eqb_refl. exact IH.
Qed.

Lemma starts_with_app (p s : string) : starts_with p (p +:+ s) = true.
Proof. unfold starts_with. now rewrite strip_prefix_app. Qed.

Lemma append_empty_r (s : string) : s +:+ "" = s.
Proof.
  induction s as [|a s IH]; [reflexivity|].
  change (String a (s +:+ "") = String a s). now rewrite IH.
Qed.

Lemma starts_with_refl (s : string) : starts_with s s = true.
Proof. rewrite <- (append_empty_r s) at 2. apply starts_with_app. Qed.

Lemma includes_refl (s : string) : includes s s = true.
Proof.
  destruct s as [|a s]; [reflexivity|].
  change (includes (String a s) (String a s))
    with (starts_with (String a s) (String a s) || includes (String a s) s).
  now rewrite starts_with_refl.
Qed.

Lemma take_line_id (s : string) : no_line_terminator s = true -> take_line s = s.
Proof.
  induction s as [|c s IH]; simpl; [reflexivity|].
  intros H. apply andb_prop in H as [Hc Hs].
  destruct (line_terminator c); [discriminate|]. now rewrite IH.
Qed.

Lemma strip_prefix_Some (p s rest : string) :
  strip_prefix p s = Some rest -> s = p +:+ rest.
Proof.
  revert s. induction p as [|a p IH]; intros s; simpl.
  - now intros [= ->].
  - destruct s as [|b s]; [discriminate|].
    destruct (Ascii.eqb_spec a b) as [->|_]; [|discriminate].
    intros H. apply IH in H. now rewrite H.
Qed.

Lemma includes_unfold (needle hay : string) :
  includes needle hay
  = starts_with needle hay ||
    match hay with
    | EmptyString => false
    | String _ hay' => includes needle hay'
    end.
Proof. destruct hay; reflexivity. Qed.

(** [includes] is containment. *)
Lemma includes_spec (needle hay : string) :
  includes needle hay = true <->
  exists pre post : string, hay = pre +:+ needle +:+ post.
Proof.
  split.
  - induction hay as [|c hay IH]; rewrite includes_unfold; intros H;
      apply orb_prop in H as [H|H]; try discriminate.
    + unfold starts_with in H.
      destruct (strip_prefix needle "") as [rest|] eqn:Hrest; [|discriminate].
      exists "", rest. exact (strip_prefix_Some _ _ _ Hrest).
    + unfold starts_with in H.
      destruct (strip_prefix needle (String c hay)) as [rest|] eqn:Hrest;
        [|discriminate].
      exists "", rest. exact (strip_prefix_Some _ _ _ Hrest).
    + destruct (IH H) as (pre & post & ->). now exists (String c pre), post.
  - intros (pre & post & ->). induction pre as [|c pre IH].
    + rewrite includes_unfold.
      change ("" +:+ needle +:+ post) with (needle +:+ post).
      now rewrite starts_with_app.
    + change (String c pre +:+ needle +:+ post)
        with (String c (pre +:+ needle +:+ post)).
      rewrite includes_unfold, IH. apply orb_true_r.
Qed.

Lemma take_drop_line (s : string) : s = take_line s +:+ drop_line s.
Proof.
  induction s as [|c s IH]; [reflexivity|]. simpl.
  destruct (line_terminator c); [reflexivity|].
  change (String c s = String c (take_line s +:+ drop_line s)). now rewrite <- IH.
Qed.

Lemma take_line_no_terminator (s : string) :
  no_line_terminator (take_line s) = true.
Proof.
  induction s as [|c s IH]; [reflexivity|]. simpl.
  destruct (line_terminator c) eqn:Hc; [reflexivity|]. simpl.
  now rewrite Hc, IH.
Qed.

Lemma drop_line_head (s : string) :
  drop_line s = "" \/
  exists c rest, drop_line s = String c rest /\ line_terminator c = true.
Proof.
  induction s as [|c s IH]; [now left|]. simpl.
  destruct (line_terminator c) eqn:Hc; [right; eauto | exact IH].
Qed.

Lemma is_empty_false (s : string) : s <> "" -> is_empty s = false.
Proof. destruct s; [congruence | reflexivity]. Qed.

Lemma is_empty_true (s : string) : is_empty s = true -> s = "".
Proof. destruct s; [reflexivity | discriminate]. Qed.

End StrFacts.

(** ** The helpers *)

(** C10: for every timestamp and every random suffix, the todo texts and the
    names the generators return match the cleanup pattern
    [/^Test (Todo|User)/], and the emails and passwords they return never
    match it. *)
Theorem generated_data_vs_cleanup_pattern (now : Z) (suffix : string) :
  TestHelpers.getTestDataPattern (TestHelpers.generateTodoText now suffix) = true /\
  TestHelpers.getTestDataPattern (TestHelpers.generateName now) = true /\
  TestHelpers.getTestDataPattern (TestHelpers.generateEmail now suffix) = false /\
  TestHelpers.getTestDataPattern (TestHelpers.generatePassword now) = false.
Proof.
  repeat split; reflexivity.
Qed.

(** The timer map after [start]: the key holds the given instant. *)
Lemma start_records (key : string) (now : Z) (measurements : gmap string Z) :
  PerformanceHelper.start key now measurements !! key = Some now.
Proof. unfold PerformanceHelper.start. apply lookup_insert_eq. Qed.

(** A paired [start]/[end] measures the elapsed time, unless the clock read
    0 at the start. *)
Lemma start_then_end (key : string) (t0 t1 : Z) (measurements : gmap string Z) :
  t0 <> 0%Z ->
  PerformanceHelper.end_ key t1 (PerformanceHelper.start key t0 measurements)
  = Ok ((t1 - t0)%Z, delete key measurements).
Proof.
  intros Hne. unfold PerformanceHelper.end_. rewrite start_records.
  destruct (Z.eqb_spec t0 0) as [->|_]; [congruence|].
  unfold PerformanceHelper.start. now rewrite delete_insert_eq.
Qed.

(** C4: [end(key)] throws whenever no start is recorded for [key]; a
    successful [end(key)] returns the time elapsed since the recorded start
    and removes [key], so that a second [end(key)] throws. *)
Theorem end_requires_recorded_start
  (key : string) (now : Z) (measurements : gmap string Z) :
  (measurements !! key = None ->
   PerformanceHelper.end_ key now measurements
   = Throw (PerformanceHelper.no_start key)) /\
  (forall (duration : Z) (measurements' : gmap string Z),
     PerformanceHelper.end_ key now measurements = Ok (duration, measurements') ->
     exists startTime : Z,
       measurements !! key = Some startTime /\
       duration = (now - startTime)%Z /\
       measurements' = delete key measurements /\
       measurements' !! key = None /\
       forall now' : Z,
         PerformanceHelper.end_ key now' measurements'
         = Throw (PerformanceHelper.no_start key)).
Proof.
  split.
  - intros Hnone. unfold PerformanceHelper.end_. now rewrite Hnone.
  - intros duration measurements'. unfold PerformanceHelper.end_.
    destruct (measurements !! key) as [startTime|] eqn:Hkey; [|discriminate].
    destruct (startTime =? 0)%Z; [discriminate|].
    intros [= <- <-]. exists startTime.
    repeat split; try reflexivity.
    + apply lookup_delete_eq.
    + intros now'. now rewrite lookup_delete_eq.
Qed.

Lemma end_requires_recorded_start_witness :
  PerformanceHelper.end_ "addTodo" 1250 ∅
  = Throw (PerformanceHelper.no_start "addTodo") /\
  exists startTime : Z,
    PerformanceHelper.start "addTodo" 1000 ∅ !! "addTodo" = Some startTime /\
    250%Z = (1250 - startTime)%Z /\
    (∅ : gmap string Z) = delete "addTodo" (PerformanceHelper.start "addTodo" 1000 ∅) /\
    (∅ : gmap string Z) !! "addTodo" = None /\
    forall now' : Z,
      PerformanceHelper.end_ "addTodo" now' ∅
      = Throw (PerformanceHelper.no_start "addTodo").
Proof.
  split.
  - apply (proj1 (end_requires_recorded_start "addTodo" 1250 ∅)).
    reflexivity.
  - apply (proj2 (end_requires_recorded_start "addTodo" 1250
                    (PerformanceHelper.start "addTodo" 1000 ∅)) 250%Z ∅).
    reflexivity.
Defined.

(** ** The base page *)

(** C8: for every path, [navigate(path)] sends the browser to the base URL
    followed by the path; a page object constructed without an argument has
    the base URL http://localhost:3001, the API client
    http://localhost:3000. *)
Theorem navigate_concatenates
  (this : BasePage.t) (path : string) (c : BasePage.controller) :
  BasePage.href (BasePage.navigate this (Some path) c)
  = BasePage.baseUrl this +:+ path /\
  BasePage.href (BasePage.navigate (BasePage.new None) (Some path) c)
  = "http://localhost:3001" +:+ path /\
  BasePage.baseUrl (BasePage.new None) = "http://localhost:3001" /\
  ApiClient.baseUrl (ApiClient.new None) = "http://localhost:3000".
Proof. repeat split. Qed.

(** A start recorded while the clock reads 0 is not told from a missing
    one. *)
Lemma end_after_start_at_zero (key : string) (now : Z) (measurements : gmap string Z) :
  PerformanceHelper.end_ key now (PerformanceHelper.start key 0 measurements)
  = Throw (PerformanceHelper.no_start key).
Proof. unfold PerformanceHelper.end_. now rewrite start_records. Qed.

(** ** The dashboard page *)

Module DashboardFacts.

Import DashboardPage.

(** The welcome line the dashboard route renders for a name gives the name
    back. *)
Lemma match_Welcome_rendered (userName : string) :
  userName <> "" -> Str.no_line_terminator userName = true ->
  match_Welcome ("Welcome " +:+ userName) = Some userName.
Proof.
  intros Hne Hline.
  destruct userName as [|c rest]; [congruence|].
  change (match_Welcome ("Welcome " +:+ String c rest))
    with (match
            (let name := Str.take_line (String c rest) in
             if Str.is_empty name then None else Some name)
          with
          | Some name => Some name
          | None => match_Welcome ("elcome " +:+ String c rest)
          end).
  rewrite (StrFacts.take_line_id _ Hline). reflexivity.
Qed.

Lemma match_Welcome_unfold (message : string) :
  match_Welcome message
  = match
      match Str.strip_prefix "Welcome " message with
      | Some rest =>
          let name := Str.take_line rest in
          if Str.is_empty name then None else Some name
      | None => None
      end
    with
    | Some name => Some name
    | None =>
        match message with
        | EmptyString => None
        | String _ message' => match_Welcome message'
        end
    end.
Proof. destruct message; reflexivity. Qed.

(** What [match_Welcome] captures stands in the message after the literal
    [Welcome ], is not empty, holds no line terminator and runs to the end
    of its line. *)
Lemma match_Welcome_sound (message name : string) :
  match_Welcome message = Some name ->
  exists pre post : string,
    message = pre +:+ "Welcome " +:+ name +:+ post /\
    name <> "" /\
    Str.no_line_terminator name = true /\
    (post = "" \/
     exists c rest, post = String c rest /\ Str.line_terminator c = true).
Proof.
  induction message as [|c message IH]; rewrite match_Welcome_unfold.
  - discriminate.
  - destruct (Str.strip_prefix "Welcome " (String c message)) as [rest|] eqn:Hrest.
    + cbv zeta. destruct (Str.is_empty (Str.take_line rest)) eqn:Hempty.
      * intros H. destruct (IH H) as (pre & post & -> & Hrest').
        now exists (String c pre), post.
      * intros [= <-]. exists "", (Str.drop_line rest).
        apply StrFacts.strip_prefix_Some in Hrest. rewrite Hrest.
        split; [|split; [|split]].
        -- change ("" +:+ "Welcome " +:+ Str.take_line rest +:+ Str.drop_line rest)
             with ("Welcome " +:+ (Str.take_line rest +:+ Str.drop_line rest)).
           now rewrite <- StrFacts.take_drop_line.
        -- intros Hnil. now rewrite Hnil in Hempty.
        -- apply StrFacts.take_line_no_terminator.
        -- apply StrFacts.drop_line_head.
    + intros H. destruct (IH H) as (pre & post & -> & Hrest').
      now exists (String c pre), post.
Qed.

Lemma match_Welcome_nonempty (message name : string) :
  match_Welcome message = Some name -> name <> "".
Proof.
  induction message as [|c message IH].
  - discriminate.
  - change (match_Welcome (String c message))
      with (match
              match Str.strip_prefix "Welcome " (String c message) with
              | Some rest =>
                  let name := Str.take_line rest in
                  if Str.is_empty name then None else Some name
              | None => None
              end
            with
            | Some name => Some name
            | None => match_Welcome message
            end).
    destruct (Str.strip_prefix "Welcome " (String c message)) as [rest|]; [|exact IH].
    cbv zeta. destruct (Str.take_line rest) as [|a l] eqn:Hl; [exact IH|].
    simpl. intros [= <-]. discriminate.
Qed.

Lemma verify_not_loaded (expectedName : option string) (d : document) :
  isLoaded d = false -> verifyUserLoggedIn expectedName d = Ok false.
Proof. intros H. unfold verifyUserLoggedIn. now rewrite H. Qed.

Lemma verify_falsy (expectedName : option string) (d : document) :
  isLoaded d = true -> truthy expectedName = false ->
  verifyUserLoggedIn expectedName d = Ok true.
Proof. intros H Hf. unfold verifyUserLoggedIn. now rewrite H, Hf. Qed.

Lemma verify_named (e : string) (d : document) :
  isLoaded d = true -> e <> "" ->
  verifyUserLoggedIn (Some e) d
  = userName ← getUserName d; Ok (strict_eq userName (Some e)).
Proof.
  intros H He. unfold verifyUserLoggedIn. rewrite H. simpl.
  now rewrite (StrFacts.is_empty_false e He).
Qed.

Lemma strict_eq_true (userName : option string) (e : string) :
  strict_eq userName (Some e) = true <-> userName = Some e.
Proof.
  destruct userName as [a|]; simpl.
  - rewrite bool_decide_eq_true. split; congruence.
  - split; discriminate.
Qed.

End DashboardFacts.

(** C7, as stated, fails: with the empty string for [expectedName] the
    method returns true on a loaded dashboard whatever name the welcome
    message holds. *)
Lemma verifyUserLoggedIn_empty_expectedName :
  ~ (forall (expectedName : string) (d : DashboardPage.document),
       DashboardPage.isLoaded d = true ->
       (DashboardPage.verifyUserLoggedIn (Some expectedName) d = Ok true <->
        DashboardPage.getUserName d = Ok (Some expectedName))).
Proof.
  intros H.
  specialize (H "" {| DashboardPage.h1 := ["Dashboard"];
                      DashboardPage.p := ["Welcome Bob"; "API: This is private"] |}
                eq_refl).
  destruct H as [H _]. specialize (H eq_refl). discriminate H.
Qed.

(** C7, amended: [verifyUserLoggedIn(expectedName)] returns false whenever
    the dashboard title is absent; when the title exists and [expectedName]
    is a non-empty string, it returns true if and only if the name captured
    from the welcome message by [/Welcome (.+)/] is [expectedName], and it
    does return when the welcome message is present; when [expectedName] is
    omitted or empty, it returns true whenever the dashboard is loaded. *)
Theorem verifyUserLoggedIn_spec (d : DashboardPage.document) :
  (DashboardPage.isLoaded d = false ->
   forall expectedName : option string,
     DashboardPage.verifyUserLoggedIn expectedName d = Ok false) /\
  (DashboardPage.isLoaded d = true ->
   (forall e : string, e <> "" ->
      (DashboardPage.verifyUserLoggedIn (Some e) d = Ok true <->
       DashboardPage.getUserName d = Ok (Some e)) /\
      (forall message : string,
         DashboardPage.getWelcomeMessage d = Ok message ->
         DashboardPage.verifyUserLoggedIn (Some e) d
         = Ok (bool_decide (DashboardPage.match_Welcome message = Some e)))) /\
   DashboardPage.verifyUserLoggedIn None d = Ok true /\
   DashboardPage.verifyUserLoggedIn (Some "") d = Ok true).
Proof.
  split.
  - intros H expectedName. now apply DashboardFacts.verify_not_loaded.
  - intros H. split; [|split].
    + intros e He. rewrite (DashboardFacts.verify_named e d H He).
      unfold DashboardPage.getUserName.
      destruct (DashboardPage.getWelcomeMessage d) as [message|msg]; simpl.
      * split.
        -- split.
           ++ intros [= Heq]. apply DashboardFacts.strict_eq_true in Heq.
              now rewrite Heq.
           ++ intros [= Heq]. f_equal.
              now apply DashboardFacts.strict_eq_true.
        -- intros message' [= <-]. f_equal.
           destruct (DashboardPage.match_Welcome message) as [a|]; simpl.
           ++ apply bool_decide_ext. split; congruence.
           ++ reflexivity.
      * split; [split; discriminate|]. intros message [=].
    + now apply DashboardFacts.verify_falsy.
    + now apply DashboardFacts.verify_falsy.
Qed.

Lemma verifyUserLoggedIn_spec_witness :
  DashboardPage.verifyUserLoggedIn (Some "Bob")
    {| DashboardPage.h1 := ["Sign in"]; DashboardPage.p := [] |} = Ok false /\
  DashboardPage.verifyUserLoggedIn (Some "Bob")
    {| DashboardPage.h1 := ["Dashboard"];
       DashboardPage.p := ["Welcome Bob"; "API: This is private"] |} = Ok true /\
  DashboardPage.verifyUserLoggedIn None
    {| DashboardPage.h1 := ["Dashboard"];
       DashboardPage.p := ["Welcome Bob"; "API: This is private"] |} = Ok true.
Proof.
  split.
  - apply (proj1 (verifyUserLoggedIn_spec
                    {| DashboardPage.h1 := ["Sign in"]; DashboardPage.p := [] |})).
    reflexivity.
  - pose proof (proj2 (verifyUserLoggedIn_spec
                    {| DashboardPage.h1 := ["Dashboard"];
                       DashboardPage.p := ["Welcome Bob"; "API: This is private"] |})
                  eq_refl) as [Hnamed [Homitted _]].
    split; [|exact Homitted].
    apply (proj1 (Hnamed "Bob" ltac:(discriminate))). reflexivity.
Defined.

(** ** The todos page *)

Module TodosFacts.

Import TodoApp TodosPage.

Local Abbreviation checked :=
  (fun row : li => bool_decide (aria_checked row = Some "true")).
Local Abbreviation labelled txt :=
  (fun row : li => Str.includes txt (label_text row)).
Local Abbreviation titled txt :=
  (fun x : Todo => Str.includes txt (text x)).

Lemma todoItems_lookup (doc : list li) (i : nat) :
  todoItems doc !! i = (fun row => (i, row)) <$> doc !! i.
Proof. unfold todoItems. apply list_lookup_imap. Qed.

Lemma getTodoCount_length (doc : list li) : getTodoCount doc = length doc.
Proof. unfold getTodoCount, Selector.count, todoItems. apply length_imap. Qed.

Lemma isTodoCompleted_row (doc : list li) (i : nat) (row : li) :
  doc !! i = Some row -> isTodoCompleted i doc = Ok (checked row).
Proof.
  intros H. unfold isTodoCompleted, Selector.nth.
  rewrite todoItems_lookup, H. reflexivity.
Qed.

Lemma isTodoCompleted_out_of_range (doc : list li) (i : nat) :
  doc !! i = None -> isTodoCompleted i doc = Throw Selector.no_match.
Proof.
  intros H. unfold isTodoCompleted, Selector.nth.
  rewrite todoItems_lookup, H. reflexivity.
Qed.

(** The loop counts the checked rows among those it visits. *)
Lemma completed_loop_counts (doc : list li) (remaining : nat) :
  forall i completedCount : nat,
    i + remaining <= length doc ->
    completed_loop remaining i completedCount doc
    = Ok (completedCount
          + length (List.filter checked (take remaining (drop i doc)))).
Proof.
  induction remaining as [|remaining IH]; intros i completedCount Hle.
  - simpl. f_equal. lia.
  - destruct (lookup_lt_is_Some_2 doc i ltac:(lia)) as [row Hrow].
    cbn [completed_loop]. rewrite (isTodoCompleted_row doc i row Hrow).
    cbn [mbind result_bind]. rewrite IH by lia.
    rewrite (drop_S doc row i Hrow). cbn [take List.filter].
    destruct (bool_decide (aria_checked row = Some "true")); simpl; f_equal; lia.
Qed.

Lemma getCompletedTodosCount_counts (doc : list li) :
  getCompletedTodosCount doc = Ok (length (List.filter checked doc)).
Proof.
  unfold getCompletedTodosCount.
  rewrite completed_loop_counts by (rewrite getTodoCount_length; lia).
  rewrite getTodoCount_length, drop_0, firstn_all. reflexivity.
Qed.

(** *** Rows selected by their text *)

Lemma imap_from_cons (k : nat) (row : li) (doc : list li) :
  imap (fun i r => (k + i, r)) (row :: doc)
  = (k, row) :: imap (fun i r => (S k + i, r)) doc.
Proof.
  rewrite imap_cons. f_equal; [f_equal; lia|].
  apply imap_ext. intros i r _. simpl. f_equal. lia.
Qed.

Lemma filter_from_none (txt : string) (doc : list li) :
  forall k : nat,
    forallb (fun row => negb (labelled txt row)) doc = true ->
    List.filter (fun r : nat * li => labelled txt (snd r))
      (imap (fun i r => (k + i, r)) doc) = [].
Proof.
  induction doc as [|row doc IH]; intros k H; [reflexivity|].
  rewrite imap_from_cons. simpl in H. apply andb_prop in H as [Hrow Hdoc].
  cbn [List.filter snd]. apply negb_true_iff in Hrow. rewrite Hrow.
  now apply IH.
Qed.

Lemma first_from_split (txt : string) (pre : list li) (row : li) (post : list li) :
  forall k : nat,
    forallb (fun r => negb (labelled txt r)) pre = true ->
    labelled txt row = true ->
    Selector.first
      (List.filter (fun r : nat * li => labelled txt (snd r))
         (imap (fun i r => (k + i, r)) (pre ++ row :: post)))
    = Ok (k + length pre, row).
Proof.
  induction pre as [|r pre IH]; intros k Hpre Hrow.
  - cbn [app]. rewrite imap_from_cons. cbn [List.filter snd]. rewrite Hrow.
    simpl. do 2 f_equal. lia.
  - cbn [app]. rewrite imap_from_cons. simpl in Hpre.
    apply andb_prop in Hpre as [Hr Hpre]. apply negb_true_iff in Hr.
    cbn [List.filter snd]. rewrite Hr. rewrite IH by assumption.
    simpl. do 2 f_equal. lia.
Qed.

Lemma exists_from (txt : string) (doc : list li) :
  forall k : nat,
    Selector.exists_
      (List.filter (fun r : nat * li => labelled txt (snd r))
         (imap (fun i r => (k + i, r)) doc))
    = existsb (labelled txt) doc.
Proof.
  induction doc as [|row doc IH]; intros k; [reflexivity|].
  rewrite imap_from_cons. cbn [List.filter snd existsb].
  destruct (Str.includes txt (label_text row)); [reflexivity|].
  apply IH.
Qed.

Lemma todoExists_existsb (txt : string) (doc : list li) :
  todoExists txt doc = existsb (labelled txt) doc.
Proof. unfold todoExists, getTodoByText, todoItems. apply (exists_from txt doc 0). Qed.

Lemma first_split (txt : string) (pre : list li) (row : li) (post : list li) :
  forallb (fun r => negb (labelled txt r)) pre = true ->
  labelled txt row = true ->
  Selector.first (getTodoByText txt (pre ++ row :: post)) = Ok (length pre, row).
Proof.
  intros Hpre Hrow. unfold getTodoByText, todoItems.
  apply (first_from_split txt pre row post 0 Hpre Hrow).
Qed.

Lemma first_none (txt : string) (doc : list li) :
  todoExists txt doc = false ->
  Selector.first (getTodoByText txt doc) = Throw Selector.no_match.
Proof.
  unfold todoExists. destruct (getTodoByText txt doc); [reflexivity | discriminate].
Qed.

(** A list with an element satisfying [f] splits at the first such one. *)
Lemma existsb_split {A : Type} (f : A -> bool) (l : list A) :
  existsb f l = true ->
  exists pre x post,
    l = pre ++ x :: post /\
    forallb (fun y => negb (f y)) pre = true /\ f x = true.
Proof.
  induction l as [|a l IH]; [discriminate|]. simpl.
  destruct (f a) eqn:Ha.
  - intros _. exists [], a, l. auto.
  - simpl. intros H. destruct (IH H) as (pre & x & post & -> & Hpre & Hx).
    exists (a :: pre), x, post. simpl. rewrite Ha. auto.
Qed.

Lemma existsb_render (txt : string) (l : list Todo) :
  existsb (labelled txt) (map render l) = existsb (titled txt) l.
Proof. induction l as [|x l IH]; [reflexivity|]. simpl. now rewrite IH. Qed.

Lemma forallb_render (txt : string) (l : list Todo) :
  forallb (fun r => negb (labelled txt r)) (map render l)
  = forallb (fun x => negb (titled txt x)) l.
Proof. induction l as [|x l IH]; [reflexivity|]. simpl. now rewrite IH. Qed.

End TodosFacts.

(** C9: for every state of the list, [getIncompleteTodosCount()] returns
    [getTodoCount()] minus [getCompletedTodosCount()]; the completed and the
    incomplete counts add up to the total, and the completed count does not
    exceed it. *)
Theorem incomplete_is_total_minus_completed (doc : list TodoApp.li) :
  exists (completed : nat) (incomplete : Z),
    TodosPage.getCompletedTodosCount doc = Ok completed /\
    TodosPage.getIncompleteTodosCount doc = Ok incomplete /\
    incomplete = (Z.of_nat (TodosPage.getTodoCount doc) - Z.of_nat completed)%Z /\
    (Z.of_nat completed + incomplete)%Z = Z.of_nat (TodosPage.getTodoCount doc) /\
    completed <= TodosPage.getTodoCount doc.
Proof.
  eexists _, _.
  unfold TodosPage.getIncompleteTodosCount.
  rewrite TodosFacts.getCompletedTodosCount_counts.
  repeat split; [lia|].
  rewrite TodosFacts.getTodoCount_length. apply filter_length_le.
Qed.

(** ** The application behind the todos page *)

Module TodoAppFacts.

Import TodoApp TodosPage.

Lemma wf_initial : wf initial.
Proof. split; simpl; constructor. Qed.

Lemma set_completed_id (i : Z) (flag : bool) (x : Todo) :
  id (set_completed i flag x) = id x.
Proof. unfold set_completed. now destruct (id x =? i)%Z. Qed.

Lemma set_completed_text (i : Z) (flag : bool) (x : Todo) :
  text (set_completed i flag x) = text x.
Proof. unfold set_completed. now destruct (id x =? i)%Z. Qed.

Lemma map_set_completed_other (i : Z) (flag : bool) (l : list Todo) :
  ~ In i (map id l) -> map (set_completed i flag) l = l.
Proof.
  induction l as [|x l IH]; [reflexivity|]. simpl. intros Hnot.
  rewrite IH by tauto. f_equal. unfold set_completed.
  destruct (Z.eqb_spec (id x) i); [tauto | reflexivity].
Qed.

Lemma filter_other (i : Z) (l : list Todo) :
  ~ In i (map id l) -> List.filter (fun x => negb (id x =? i)%Z) l = l.
Proof.
  induction l as [|x l IH]; [reflexivity|]. simpl. intros Hnot.
  destruct (Z.eqb_spec (id x) i); [tauto|]. simpl. rewrite IH by tauto.
  reflexivity.
Qed.

(** With distinct ids, the row of [x] is the only one of its id. *)
Lemma unique_id (pre post : list Todo) (x : Todo) :
  NoDup (map id (pre ++ x :: post)) ->
  ~ In (id x) (map id pre) /\ ~ In (id x) (map id post).
Proof.
  rewrite map_app. simpl. intros H.
  apply NoDup_app in H as (_ & Hdisjoint & Hpost).
  apply NoDup_cons in Hpost as [Hx _]. split.
  - intros Hin. apply list_elem_of_In in Hin.
    apply (Hdisjoint _ Hin). apply list_elem_of_here.
  - rewrite <- list_elem_of_In. exact Hx.
Qed.

Lemma toggle_at (pre post : list Todo) (x : Todo) (flag : bool) :
  NoDup (map id (pre ++ x :: post)) ->
  map (set_completed (id x) flag) (pre ++ x :: post)
  = pre ++ {| id := id x; text := text x; completed := flag |} :: post.
Proof.
  intros H. destruct (unique_id pre post x H) as [Hpre Hpost].
  rewrite map_app. simpl.
  rewrite (map_set_completed_other _ _ pre Hpre).
  rewrite (map_set_completed_other _ _ post Hpost).
  unfold set_completed at 1. now rewrite Z.eqb_refl.
Qed.

Lemma delete_at (pre post : list Todo) (x : Todo) :
  NoDup (map id (pre ++ x :: post)) ->
  List.filter (fun y => negb (id y =? id x)%Z) (pre ++ x :: post) = pre ++ post.
Proof.
  intros H. destruct (unique_id pre post x H) as [Hpre Hpost].
  rewrite List.filter_app. simpl. rewrite Z.eqb_refl. simpl.
  now rewrite (filter_other _ pre Hpre), (filter_other _ post Hpost).
Qed.

(** The operations keep the invariant. *)
Lemma wf_create (txt : string) (s s' : state) :
  wf s -> create txt s = Some s' -> wf s'.
Proof.
  intros [Hnd Hlt]. unfold create.
  destruct (Str.is_empty txt); [discriminate|]. intros [= <-].
  split; simpl.
  - rewrite map_app. simpl. apply NoDup_app. split; [exact Hnd|].
    split; [|apply NoDup_singleton].
    intros i Hi Hin. apply list_elem_of_In in Hi.
    apply list_elem_of_In in Hin. simpl in Hin.
    apply in_map_iff in Hi as (x & <- & Hx).
    rewrite Forall_forall in Hlt. apply list_elem_of_In in Hx.
    specialize (Hlt x Hx). simpl in Hlt. lia.
  - apply Forall_app. split.
    + eapply Forall_impl; [exact Hlt|]. simpl. intros x Hx. lia.
    + constructor; [simpl; lia | constructor].
Qed.

Lemma wf_typeText (txt : string) (s : state) : wf s -> wf (typeText txt s).
Proof. intros H. exact H. Qed.

Lemma wf_toggle (i : Z) (flag : bool) (s : state) : wf s -> wf (toggle i flag s).
Proof.
  intros [Hnd Hlt]. split; simpl.
  - rewrite map_map.
    rewrite (map_ext _ id (set_completed_id i flag)). exact Hnd.
  - apply Forall_map. eapply Forall_impl; [exact Hlt|].
    intros x Hx. simpl. now rewrite set_completed_id.
Qed.

Lemma wf_delete (i : Z) (s : state) : wf s -> wf (delete i s).
Proof.
  intros [Hnd Hlt]. split; simpl.
  - induction (todos s) as [|x l IH]; [constructor|]. simpl in *.
    apply NoDup_cons in Hnd as [Hx Hl]. apply Forall_cons in Hlt as [_ Hlt].
    destruct (negb (id x =? i)%Z); [|now apply IH].
    simpl. apply NoDup_cons. split; [|now apply IH].
    rewrite list_elem_of_In in *. rewrite in_map_iff in *.
    intros (y & Hy & Hin). apply Hx. exists y. split; [exact Hy|].
    apply filter_In in Hin. tauto.
  - rewrite Forall_forall in *. intros x Hx. apply Hlt.
    apply list_elem_of_In in Hx. apply filter_In in Hx.
    apply list_elem_of_In. tauto.
Qed.

Lemma wf_addTodo (txt : string) (s s' : state) :
  wf s -> addTodo txt s = Ok s' -> wf s'.
Proof.
  intros Hwf. unfold addTodo. destruct (Str.is_empty txt) eqn:He; [discriminate|].
  simpl. intros [= <-]. unfold click_add. simpl.
  destruct (create txt (typeText txt s)) as [s1|] eqn:Hc; [|exact Hwf].
  apply wf_typeText. exact (wf_create txt _ s1 (wf_typeText txt s Hwf) Hc).
Qed.

Lemma wf_toggleTodoByText (txt : string) (s s' : state) :
  wf s -> toggleTodoByText txt s = Ok s' -> wf s'.
Proof.
  intros Hwf H. unfold toggleTodoByText in H.
  apply bind_Ok in H as (todo & _ & [= <-]). unfold click_checkbox.
  destruct (todos s !! fst todo); [now apply wf_toggle | exact Hwf].
Qed.

Lemma wf_deleteTodoByText (txt : string) (s s' : state) :
  wf s -> deleteTodoByText txt s = Ok s' -> wf s'.
Proof.
  intros Hwf H. unfold deleteTodoByText in H.
  apply bind_Ok in H as (todo & _ & [= <-]). unfold click_delete.
  destruct (todos s !! fst todo); [now apply wf_delete | exact Hwf].
Qed.

End TodoAppFacts.

(** C1: for every non-empty text, [addTodo(text)] completes, after which
    [getTodoCount()] is one more than before and [todoExists(text)] is
    true. *)
Theorem addTodo_adds_one_row (txt : string) (s : TodoApp.state) :
  txt <> "" ->
  exists s' : TodoApp.state,
    TodosPage.addTodo txt s = Ok s' /\
    TodosPage.getTodoCount (TodoApp.document s')
    = S (TodosPage.getTodoCount (TodoApp.document s)) /\
    TodosPage.todoExists txt (TodoApp.document s') = true.
Proof.
  intros Hne. apply StrFacts.is_empty_false in Hne.
  unfold TodosPage.addTodo, TodoApp.click_add, TodoApp.create.
  cbn [TodoApp.typeText TodoApp.newTodoText]. rewrite Hne.
  eexists. split; [reflexivity|].
  rewrite !TodosFacts.getTodoCount_length, TodosFacts.todoExists_existsb.
  unfold TodoApp.document, TodoApp.getAll. cbn [TodoApp.typeText TodoApp.todos].
  rewrite map_app, length_app, existsb_app.
  cbn [map length existsb TodoApp.render TodoApp.label_text TodoApp.text].
  rewrite StrFacts.includes_refl.
  split; [lia | now rewrite orb_true_r].
Qed.

Lemma addTodo_adds_one_row_witness :
  exists s' : TodoApp.state,
    TodosPage.addTodo (TestHelpers.generateTodoText 1700000000000 "ab12cd")
      TodoApp.initial = Ok s' /\
    TodosPage.getTodoCount (TodoApp.document s')
    = S (TodosPage.getTodoCount (TodoApp.document TodoApp.initial)) /\
    TodosPage.todoExists (TestHelpers.generateTodoText 1700000000000 "ab12cd")
      (TodoApp.document s') = true.
Proof.
  apply (addTodo_adds_one_row
           (TestHelpers.generateTodoText 1700000000000 "ab12cd") TodoApp.initial).
  vm_compute. discriminate.
Defined.

Module TodoRowFacts.

Import TodoApp TodosPage.

Lemma flip_flip (x : Todo) : flip (flip x) = x.
Proof. destruct x as [i txt c]. unfold flip. simpl. now rewrite negb_involutive. Qed.

Lemma first_of_todos (txt : string) (pre post : list Todo) (x : Todo) :
  forallb (fun y => negb (Str.includes txt (text y))) pre = true ->
  Str.includes txt (text x) = true ->
  Selector.first (getTodoByText txt (map render (pre ++ x :: post)))
  = Ok (length pre, render x).
Proof.
  intros Hpre Hx. rewrite map_app. cbn [map].
  rewrite TodosFacts.first_split.
  - now rewrite length_map.
  - now rewrite TodosFacts.forallb_render.
  - exact Hx.
Qed.

(** A click on the checkbox of the first row matching [txt] flips that row
    and no other. *)
Lemma toggle_split (txt : string) (pre post : list Todo) (x : Todo)
  (n : Z) (inp : string) :
  NoDup (map id (pre ++ x :: post)) ->
  forallb (fun y => negb (Str.includes txt (text y))) pre = true ->
  Str.includes txt (text x) = true ->
  toggleTodoByText txt
    {| todos := pre ++ x :: post; next_id := n; newTodoText := inp |}
  = Ok {| todos := pre ++ flip x :: post; next_id := n; newTodoText := inp |}.
Proof.
  intros Hnd Hpre Hx. unfold toggleTodoByText, document, getAll.
  cbn [todos]. rewrite (first_of_todos txt pre post x Hpre Hx).
  cbn [mbind result_bind fst]. unfold click_checkbox. cbn [todos].
  rewrite (list_lookup_middle pre post x (length pre) eq_refl).
  unfold toggle. cbn [todos next_id newTodoText].
  now rewrite (TodoAppFacts.toggle_at pre post x _ Hnd).
Qed.

(** A click on the delete button of the first row matching [txt] removes
    that row and no other. *)
Lemma delete_split (txt : string) (pre post : list Todo) (x : Todo)
  (n : Z) (inp : string) :
  NoDup (map id (pre ++ x :: post)) ->
  forallb (fun y => negb (Str.includes txt (text y))) pre = true ->
  Str.includes txt (text x) = true ->
  deleteTodoByText txt
    {| todos := pre ++ x :: post; next_id := n; newTodoText := inp |}
  = Ok {| todos := pre ++ post; next_id := n; newTodoText := inp |}.
Proof.
  intros Hnd Hpre Hx. unfold deleteTodoByText, document, getAll.
  cbn [todos]. rewrite (first_of_todos txt pre post x Hpre Hx).
  cbn [mbind result_bind fst]. unfold click_delete. cbn [todos].
  rewrite (list_lookup_middle pre post x (length pre) eq_refl).
  unfold delete. cbn [todos next_id newTodoText].
  now rewrite (TodoAppFacts.delete_at pre post x Hnd).
Qed.

Lemma todos_split (txt : string) (s : state) :
  todoExists txt (document s) = true ->
  exists pre x post,
    todos s = pre ++ x :: post /\
    forallb (fun y => negb (Str.includes txt (text y))) pre = true /\
    Str.includes txt (text x) = true.
Proof.
  rewrite TodosFacts.todoExists_existsb. unfold document, getAll.
  rewrite TodosFacts.existsb_render. apply TodosFacts.existsb_split.
Qed.

Lemma labelled_exists (txt : string) (doc : list li) (index : nat) (row : li) :
  doc !! index = Some row -> label_text row = txt -> todoExists txt doc = true.
Proof.
  intros Hrow Htxt. rewrite TodosFacts.todoExists_existsb.
  apply existsb_exists. exists row. split.
  - apply list_elem_of_In. now apply list_elem_of_lookup_2 with index.
  - rewrite Htxt. apply StrFacts.includes_refl.
Qed.

Lemma todoExists_app_none (txt : string) (pre post : list li) :
  forallb (fun r => negb (Str.includes txt (label_text r))) pre = true ->
  todoExists txt (pre ++ post) = todoExists txt post.
Proof.
  intros Hpre. rewrite !TodosFacts.todoExists_existsb, existsb_app.
  replace (existsb (fun r => Str.includes txt (label_text r)) pre) with false;
    [reflexivity|].
  symmetry. induction pre as [|r pre IH]; [reflexivity|]. simpl in *.
  apply andb_prop in Hpre as [Hr Hpre]. apply negb_true_iff in Hr.
  now rewrite Hr, IH.
Qed.

End TodoRowFacts.

(** C2: for every todo of label text [txt] present in the list,
    [toggleTodoByText(txt)] applied twice in a row leaves its completed
    state, as [isTodoCompleted] reads it, as it was; the list as a whole is
    back in its first state. *)
Theorem toggleTodoByText_twice
  (txt : string) (s : TodoApp.state) (index : nat) (row : TodoApp.li) :
  TodoApp.wf s ->
  TodoApp.document s !! index = Some row ->
  TodoApp.label_text row = txt ->
  exists s1 s2 : TodoApp.state,
    TodosPage.toggleTodoByText txt s = Ok s1 /\
    TodosPage.toggleTodoByText txt s1 = Ok s2 /\
    TodosPage.isTodoCompleted index (TodoApp.document s2)
    = TodosPage.isTodoCompleted index (TodoApp.document s) /\
    s2 = s.
Proof.
  intros [Hnd _] Hrow Htxt.
  pose proof (TodoRowFacts.labelled_exists txt _ index row Hrow Htxt) as Hex.
  destruct (TodoRowFacts.todos_split txt s Hex) as (pre & x & post & Hs & Hpre & Hx).
  destruct s as [l n inp]. cbn [TodoApp.todos] in Hs, Hnd. subst l.
  eexists _, _. split; [|split].
  - apply (TodoRowFacts.toggle_split txt pre post x n inp Hnd Hpre Hx).
  - apply (TodoRowFacts.toggle_split txt pre post (TodoApp.flip x) n inp).
    + rewrite map_app in *. exact Hnd.
    + exact Hpre.
    + exact Hx.
  - rewrite TodoRowFacts.flip_flip. split; reflexivity.
Qed.

Lemma toggleTodoByText_twice_witness :
  exists s1 s2 : TodoApp.state,
    TodosPage.toggleTodoByText "Buy milk"
      {| TodoApp.todos :=
           [{| TodoApp.id := 1; TodoApp.text := "Buy milk"; TodoApp.completed := false |}];
         TodoApp.next_id := 2; TodoApp.newTodoText := "" |} = Ok s1 /\
    TodosPage.toggleTodoByText "Buy milk" s1 = Ok s2 /\
    TodosPage.isTodoCompleted 0 (TodoApp.document s2)
    = TodosPage.isTodoCompleted 0
        (TodoApp.document
           {| TodoApp.todos :=
                [{| TodoApp.id := 1; TodoApp.text := "Buy milk"; TodoApp.completed := false |}];
              TodoApp.next_id := 2; TodoApp.newTodoText := "" |}) /\
    s2 = {| TodoApp.todos :=
              [{| TodoApp.id := 1; TodoApp.text := "Buy milk"; TodoApp.completed := false |}];
            TodoApp.next_id := 2; TodoApp.newTodoText := "" |}.
Proof.
  apply (toggleTodoByText_twice "Buy milk" _ 0
           (TodoApp.render
              {| TodoApp.id := 1; TodoApp.text := "Buy milk"; TodoApp.completed := false |})).
  - split; simpl.
    + apply NoDup_singleton.
    + repeat constructor.
  - reflexivity.
  - reflexivity.
Defined.

(** Two calls of [addTodo] with one text leave two rows of that text. *)
Lemma addTodo_same_text_twice :
  TodosPage.addTodo "Buy milk" TodoApp.initial ≫= TodosPage.addTodo "Buy milk"
  = Ok {| TodoApp.todos :=
            [{| TodoApp.id := 1; TodoApp.text := "Buy milk"; TodoApp.completed := false |};
             {| TodoApp.id := 2; TodoApp.text := "Buy milk"; TodoApp.completed := false |}];
          TodoApp.next_id := 3; TodoApp.newTodoText := "" |}.
Proof. reflexivity. Qed.

(** Without a row containing the text the click fails and nothing is
    removed. *)
Lemma deleteTodoByText_no_match (txt : string) (s : TodoApp.state) :
  TodosPage.todoExists txt (TodoApp.document s) = false ->
  TodosPage.deleteTodoByText txt s = Throw Selector.no_match.
Proof.
  intros H. unfold TodosPage.deleteTodoByText.
  now rewrite (TodosFacts.first_none txt _ H).
Qed.

(** C3, as stated, fails: with two rows of the same text one is removed and
    [todoExists] still finds the other. *)
Lemma deleteTodoByText_duplicate_text :
  ~ (forall (txt : string) (s : TodoApp.state),
       TodoApp.wf s ->
       exists s' : TodoApp.state,
         TodosPage.deleteTodoByText txt s = Ok s' /\
         TodosPage.getTodoCount (TodoApp.document s') + 1
         = TodosPage.getTodoCount (TodoApp.document s) /\
         TodosPage.todoExists txt (TodoApp.document s') = false).
Proof.
  intros H.
  destruct (H "Buy milk"
              {| TodoApp.todos :=
                   [{| TodoApp.id := 1; TodoApp.text := "Buy milk"; TodoApp.completed := false |};
                    {| TodoApp.id := 2; TodoApp.text := "Buy milk"; TodoApp.completed := false |}];
                 TodoApp.next_id := 3; TodoApp.newTodoText := "" |})
    as (s' & Hdel & _ & Hgone).
  - split; simpl.
    + apply NoDup_cons. split; [|apply NoDup_singleton].
      intros Hin. apply list_elem_of_singleton in Hin. discriminate Hin.
    + repeat constructor.
  - vm_compute in Hdel. injection Hdel as <-.
    vm_compute in Hgone. discriminate Hgone.
Qed.

(** C3, amended: for every text contained in the label of some row,
    [deleteTodoByText(text)] removes exactly one row, the first whose label
    contains the text, and leaves the others; afterwards [todoExists(text)]
    is false exactly when no later row's label contains the text. *)
Theorem deleteTodoByText_removes_first_match (txt : string) (s : TodoApp.state) :
  TodoApp.wf s ->
  TodosPage.todoExists txt (TodoApp.document s) = true ->
  exists (pre : list TodoApp.li) (row : TodoApp.li) (post : list TodoApp.li)
         (s' : TodoApp.state),
    TodoApp.document s = pre ++ row :: post /\
    forallb (fun r => negb (Str.includes txt (TodoApp.label_text r))) pre = true /\
    Str.includes txt (TodoApp.label_text row) = true /\
    TodosPage.deleteTodoByText txt s = Ok s' /\
    TodoApp.document s' = pre ++ post /\
    TodosPage.getTodoCount (TodoApp.document s') + 1
    = TodosPage.getTodoCount (TodoApp.document s) /\
    TodosPage.todoExists txt (TodoApp.document s') = TodosPage.todoExists txt post /\
    TodoApp.wf s'.
Proof.
  intros Hwf Hex.
  destruct (TodoRowFacts.todos_split txt s Hex) as (pre & x & post & Hs & Hpre & Hx).
  destruct s as [l n inp]. cbn [TodoApp.todos] in Hs. subst l.
  pose proof Hwf as [Hnd _]. cbn [TodoApp.todos] in Hnd.
  pose proof (TodoRowFacts.delete_split txt pre post x n inp Hnd Hpre Hx) as Hdel.
  assert (Hwf' : TodoApp.wf
            {| TodoApp.todos := pre ++ post; TodoApp.next_id := n;
               TodoApp.newTodoText := inp |}).
  { pose proof (TodoAppFacts.wf_delete (TodoApp.id x) _ Hwf) as H.
    unfold TodoApp.delete in H. cbn [TodoApp.todos TodoApp.next_id TodoApp.newTodoText] in H.
    now rewrite (TodoAppFacts.delete_at pre post x Hnd) in H. }
  exists (map TodoApp.render pre), (TodoApp.render x), (map TodoApp.render post).
  eexists.
  unfold TodoApp.document, TodoApp.getAll. cbn [TodoApp.todos].
  split; [now rewrite map_app|].
  split; [now rewrite TodosFacts.forallb_render|].
  split; [exact Hx|].
  split; [exact Hdel|].
  cbn [TodoApp.todos].
  split; [now rewrite map_app|].
  split.
  { rewrite !TodosFacts.getTodoCount_length, !length_map, !length_app.
    simpl. lia. }
  split; [|exact Hwf'].
  rewrite map_app. apply TodoRowFacts.todoExists_app_none.
  now rewrite TodosFacts.forallb_render.
Qed.

Lemma deleteTodoByText_removes_first_match_witness :
  exists (pre : list TodoApp.li) (row : TodoApp.li) (post : list TodoApp.li)
         (s' : TodoApp.state),
    TodoApp.document
      {| TodoApp.todos :=
           [{| TodoApp.id := 1; TodoApp.text := "Walk"; TodoApp.completed := true |};
            {| TodoApp.id := 2; TodoApp.text := "Buy milk"; TodoApp.completed := false |}];
         TodoApp.next_id := 3; TodoApp.newTodoText := "" |}
    = pre ++ row :: post /\
    forallb (fun r => negb (Str.includes "Buy milk" (TodoApp.label_text r))) pre = true /\
    Str.includes "Buy milk" (TodoApp.label_text row) = true /\
    TodosPage.deleteTodoByText "Buy milk"
      {| TodoApp.todos :=
           [{| TodoApp.id := 1; TodoApp.text := "Walk"; TodoApp.completed := true |};
            {| TodoApp.id := 2; TodoApp.text := "Buy milk"; TodoApp.completed := false |}];
         TodoApp.next_id := 3; TodoApp.newTodoText := "" |} = Ok s' /\
    TodoApp.document s' = pre ++ post /\
    TodosPage.getTodoCount (TodoApp.document s') + 1
    = TodosPage.getTodoCount
        (TodoApp.document
           {| TodoApp.todos :=
                [{| TodoApp.id := 1; TodoApp.text := "Walk"; TodoApp.completed := true |};
                 {| TodoApp.id := 2; TodoApp.text := "Buy milk"; TodoApp.completed := false |}];
              TodoApp.next_id := 3; TodoApp.newTodoText := "" |}) /\
    TodosPage.todoExists "Buy milk" (TodoApp.document s')
    = TodosPage.todoExists "Buy milk" post /\
    TodoApp.wf s'.
Proof.
  apply (deleteTodoByText_removes_first_match "Buy milk").
  - split; simpl.
    + apply NoDup_cons. split; [|apply NoDup_singleton].
      intros Hin. apply list_elem_of_singleton in Hin. discriminate Hin.
    + repeat constructor.
  - reflexivity.
Defined.

(** ** The login page *)

Module LoginFacts.

Import LoginPage.

Lemma fillSignUpForm_fields (name email password : string) (pg : page) :
  pathname pg = "/login" ->
  name <> "" -> email <> "" -> password <> "" ->
  exists pg' : page,
    fillSignUpForm name email password pg = Ok pg' /\
    isOnSignUpForm pg' = true /\
    nameInput pg' = name /\ emailInput pg' = email /\ passwordInput pg' = password.
Proof.
  intros Hpath Hn He Hp.
  assert (Hon : on_login pg = true) by (unfold on_login; now apply bool_decide_eq_true).
  unfold fillSignUpForm, switchToSignUp, isOnSignInForm. rewrite Hon.
  unfold typeText, check_text. cbn [andb].
  rewrite (StrFacts.is_empty_false _ Hn), (StrFacts.is_empty_false _ He),
    (StrFacts.is_empty_false _ Hp).
  destruct (showSignIn pg) eqn:Hshow; cbn; unfold on_login; cbn;
    rewrite Hpath; cbn; rewrite ?Hshow; cbn;
    eexists; (split; [reflexivity|]); unfold isOnSignUpForm, on_login; cbn;
    auto.
Qed.

Section Validation.

Variable valid_email : string -> bool.

Lemma invalid_email_message (name email password : string) :
  valid_email email = false ->
  In "Invalid email address" (validate valid_email name email password).
Proof.
  intros H. unfold validate. rewrite H.
  apply in_or_app. right. apply in_or_app. left. now left.
Qed.

Lemma short_password_message (name email password : string) :
  String.length password < 8 ->
  In "Password must be at least 8 characters"
    (validate valid_email name email password).
Proof.
  intros H. unfold validate.
  destruct (Nat.ltb_spec (String.length password) 8) as [_|Hge]; [|lia].
  apply in_or_app. right. apply in_or_app. right. now left.
Qed.

End Validation.

End LoginFacts.

(** C5: on the sign-up form at [/login], a submit with a syntactically
    invalid email or with a password under 8 characters leaves the pathname
    at [/login], and the form shows the respective message, Invalid email
    address or Password must be at least 8 characters, among the elements
    [errorMessage] selects. *)
Theorem signUp_validation_stays_on_login
  (valid_email : string -> bool) (accepts : string -> string -> string -> bool)
  (submit_sign_in : LoginPage.page -> LoginPage.page) (pg : LoginPage.page) :
  LoginPage.isOnSignUpForm pg = true ->
  valid_email (LoginPage.emailInput pg) = false \/
  String.length (LoginPage.passwordInput pg) < 8 ->
  exists pg' : LoginPage.page,
    LoginPage.submitForm valid_email accepts submit_sign_in pg = Ok pg' /\
    LoginPage.getCurrentPath pg' = "/login" /\
    (valid_email (LoginPage.emailInput pg) = false ->
     In "Invalid email address" (LoginPage.errorMessage pg')) /\
    (String.length (LoginPage.passwordInput pg) < 8 ->
     In "Password must be at least 8 characters" (LoginPage.errorMessage pg')).
Proof.
  intros Hform Hbad.
  assert (Hpath : LoginPage.pathname pg = "/login").
  { unfold LoginPage.isOnSignUpForm, LoginPage.on_login in Hform.
    apply andb_prop in Hform as [Hon _]. now apply bool_decide_eq_true in Hon. }
  unfold LoginPage.submitForm. rewrite Hform. eexists. split; [reflexivity|].
  unfold LoginPage.submit_sign_up, LoginPage.getCurrentPath.
  pose proof (LoginFacts.invalid_email_message valid_email
                (LoginPage.nameInput pg) (LoginPage.emailInput pg)
                (LoginPage.passwordInput pg)) as Hemail.
  pose proof (LoginFacts.short_password_message valid_email
                (LoginPage.nameInput pg) (LoginPage.emailInput pg)
                (LoginPage.passwordInput pg)) as Hpassword.
  destruct (LoginPage.validate valid_email (LoginPage.nameInput pg)
              (LoginPage.emailInput pg) (LoginPage.passwordInput pg))
    as [|e errors].
  - exfalso. destruct Hbad as [Hbad|Hbad]; [exact (Hemail Hbad) | exact (Hpassword Hbad)].
  - cbn. auto.
Qed.

Lemma signUp_validation_stays_on_login_witness :
  exists pg' : LoginPage.page,
    LoginPage.submitForm (Str.includes "@") (fun _ _ _ => true) (fun pg => pg)
      {| LoginPage.pathname := "/login"; LoginPage.showSignIn := false;
         LoginPage.nameInput := "Test User";
         LoginPage.emailInput := "invalid-email";
         LoginPage.passwordInput := "short";
         LoginPage.errorMessage := [] |} = Ok pg' /\
    LoginPage.getCurrentPath pg' = "/login" /\
    (Str.includes "@" "invalid-email" = false ->
     In "Invalid email address" (LoginPage.errorMessage pg')) /\
    (String.length "short" < 8 ->
     In "Password must be at least 8 characters" (LoginPage.errorMessage pg')).
Proof.
  apply (signUp_validation_stays_on_login (Str.includes "@") (fun _ _ _ => true)
           (fun pg => pg)
           {| LoginPage.pathname := "/login"; LoginPage.showSignIn := false;
              LoginPage.nameInput := "Test User";
              LoginPage.emailInput := "invalid-email";
              LoginPage.passwordInput := "short";
              LoginPage.errorMessage := [] |}).
  - reflexivity.
  - left. reflexivity.
Defined.

(** The flow of the authentication tests: open the page, fill the sign-up
    form, submit. *)
Lemma invalid_email_flow :
  (pg ← LoginPage.fillSignUpForm "Test User" "invalid-email" "TestPass123!"
          LoginPage.open;
   pg ← LoginPage.submitForm (Str.includes "@") (fun _ _ _ => true) (fun pg => pg) pg;
   Ok (LoginPage.getCurrentPath pg, LoginPage.errorMessage pg))
  = Ok ("/login", ["Invalid email address"]).
Proof. reflexivity. Qed.

(** ** The guest role *)

Module RolesFacts.

Import Browser Roles.

Lemma removed_not_httpOnly (n p : string) (l : list cookie) :
  existsb (fun c => same_key n p c && httpOnly c) l = false ->
  List.filter httpOnly (List.filter (fun c => negb (same_key n p c)) l)
  = List.filter httpOnly l.
Proof.
  induction l as [|c l IH]; [reflexivity|]. simpl.
  intros H. apply orb_false_elim in H as [Hc Hl].
  destruct (same_key n p c) eqn:Hkey; simpl.
  - simpl in Hc. rewrite Hc. now apply IH.
  - destruct (httpOnly c); [f_equal|]; now apply IH.
Qed.

(** An assignment to [document.cookie] neither touches local storage nor
    adds, changes or removes an [httpOnly] cookie. *)
Lemma assign_cookie_keeps (s : string) (st : state) :
  localStorage (assign_cookie s st) = localStorage st /\
  List.filter httpOnly (cookies (assign_cookie s st))
  = List.filter httpOnly (cookies st).
Proof.
  unfold assign_cookie.
  destruct (Str.split ";" s) as [|nv attrs]; [auto|].
  destruct (match cut_eq nv with
            | Some (l, r) => (trim l, trim r)
            | None => (EmptyString, trim nv)
            end) as [n v].
  destruct (Str.is_empty n && Str.is_empty v); [auto|].
  match goal with
  | |- context [existsb ?f (cookies st)] =>
      destruct (existsb f (cookies st)) eqn:Hguard
  end; [auto|].
  cbn [localStorage cookies]. split; [reflexivity|].
  destruct (existsb (Str.starts_with "expires=") (map trim attrs)).
  - now apply removed_not_httpOnly.
  - rewrite List.filter_app. cbn [List.filter httpOnly].
    rewrite app_nil_r. now apply removed_not_httpOnly.
Qed.

Lemma fold_assign_keeps (f : string -> string) (l : list string) :
  forall st : state,
    localStorage (fold_left (fun st c => assign_cookie (f c) st) l st)
    = localStorage st /\
    List.filter httpOnly (cookies (fold_left (fun st c => assign_cookie (f c) st) l st))
    = List.filter httpOnly (cookies st).
Proof.
  induction l as [|c l IH]; intros st; [auto|]. simpl.
  destruct (IH (assign_cookie (f c) st)) as [-> ->].
  apply assign_cookie_keeps.
Qed.

(** The routine empties local storage, and every [httpOnly] cookie of the
    jar is still there when it ends. *)
Lemma guestUser_keeps_httpOnly (utc : string) (st : state) :
  localStorage (guestUser utc st) = ∅ /\
  List.filter httpOnly (cookies (guestUser utc st))
  = List.filter httpOnly (cookies st).
Proof.
  unfold guestUser, clear_authentication.
  match goal with
  | |- context [fold_left (fun st c => assign_cookie (@?f c) st) ?l ?st0] =>
      destruct (fold_assign_keeps f l st0) as [Hls Hjar]
  end.
  split; [exact Hls | exact Hjar].
Qed.

End RolesFacts.


(** * Further properties of the helpers and page objects *)

(** ** [PerformanceHelper] *)

(** X1: a [start(key)] at an instant other than 0 followed by [end(key)]
    returns the time elapsed since that start and leaves the map as it was
    without [key]; a second [start(key)] replaces the first, so that the
    time is measured from the later one. *)
Theorem timer_round_trip (key : string) (t0 t1 now : Z) (measurements : gmap string Z) :
  t1 <> 0%Z ->
  PerformanceHelper.end_ key now (PerformanceHelper.start key t1 measurements)
  = Ok ((now - t1)%Z, delete key measurements) /\
  PerformanceHelper.end_ key now
    (PerformanceHelper.start key t1 (PerformanceHelper.start key t0 measurements))
  = Ok ((now - t1)%Z, delete key measurements).
Proof.
  intros Hne. split.
  - now apply start_then_end.
  - rewrite (start_then_end key t1 now _ Hne).
    unfold PerformanceHelper.start. now rewrite delete_insert_eq.
Qed.

Lemma timer_round_trip_witness :
  PerformanceHelper.end_ "pageLoad" 1750 (PerformanceHelper.start "pageLoad" 1500 ∅)
  = Ok (250%Z, delete "pageLoad" (∅ : gmap string Z)) /\
  PerformanceHelper.end_ "pageLoad" 1750
    (PerformanceHelper.start "pageLoad" 1500 (PerformanceHelper.start "pageLoad" 1000 ∅))
  = Ok (250%Z, delete "pageLoad" (∅ : gmap string Z)).
Proof. apply (timer_round_trip "pageLoad" 1000 1500 1750 ∅). discriminate. Defined.

(** X2: timers of different keys do not disturb each other: a [start] of
    another key changes neither whether [end(key)] throws nor the duration
    it returns, and the other key's start stays recorded. *)
Theorem timers_independent
  (key other : string) (t now : Z) (measurements : gmap string Z) :
  key <> other ->
  PerformanceHelper.end_ key now (PerformanceHelper.start other t measurements)
  = match PerformanceHelper.end_ key now measurements with
    | Ok (duration, measurements') =>
        Ok (duration, PerformanceHelper.start other t measurements')
    | Throw msg => Throw msg
    end.
Proof.
  intros Hne. unfold PerformanceHelper.end_, PerformanceHelper.start.
  rewrite lookup_insert_ne by congruence.
  destruct (measurements !! key) as [startTime|]; [|reflexivity].
  destruct (startTime =? 0)%Z; [reflexivity|].
  now rewrite delete_insert_ne by congruence.
Qed.

Lemma timers_independent_witness :
  PerformanceHelper.end_ "addTodo" 1300
    (PerformanceHelper.start "toggleTodo" 1200
       (PerformanceHelper.start "addTodo" 1000 ∅))
  = match PerformanceHelper.end_ "addTodo" 1300
            (PerformanceHelper.start "addTodo" 1000 ∅) with
    | Ok (duration, measurements') =>
        Ok (duration, PerformanceHelper.start "toggleTodo" 1200 measurements')
    | Throw msg => Throw msg
    end.
Proof.
  apply (timers_independent "addTodo" "toggleTodo" 1200 1300
           (PerformanceHelper.start "addTodo" 1000 ∅)).
  discriminate.
Defined.

(** X3: [end(key)] throws exactly when the map holds no start for [key] or
    holds the instant 0 for it; in every other case it returns. *)
Theorem end_throws_iff (key : string) (now : Z) (measurements : gmap string Z) :
  PerformanceHelper.end_ key now measurements
  = Throw (PerformanceHelper.no_start key)
  <-> measurements !! key = None \/ measurements !! key = Some 0%Z.
Proof.
  unfold PerformanceHelper.end_.
  destruct (measurements !! key) as [startTime|].
  - destruct (Z.eqb_spec startTime 0) as [->|Hne].
    + split; [now right | reflexivity].
    + split; [discriminate|]. intros [H|H]; [discriminate | congruence].
  - split; [now left | reflexivity].
Qed.

(** ** [TodosPage]: reading the rows *)

Module TodosReadFacts.

Import TodoApp TodosPage.

Lemma getTodoText_row (doc : list li) (i : nat) (row : li) :
  doc !! i = Some row -> getTodoText i doc = Ok (label_text row).
Proof.
  intros H. unfold getTodoText, Selector.nth.
  rewrite TodosFacts.todoItems_lookup, H. reflexivity.
Qed.

Lemma getTodoText_out_of_range (doc : list li) (i : nat) :
  doc !! i = None -> getTodoText i doc = Throw Selector.no_match.
Proof.
  intros H. unfold getTodoText, Selector.nth.
  rewrite TodosFacts.todoItems_lookup, H. reflexivity.
Qed.

Lemma texts_loop_collects (doc : list li) (remaining : nat) :
  forall (i : nat) (texts : list string),
    i + remaining <= length doc ->
    texts_loop remaining i texts doc
    = Ok (texts ++ map label_text (take remaining (drop i doc))).
Proof.
  induction remaining as [|remaining IH]; intros i texts Hle.
  - simpl. now rewrite app_nil_r.
  - destruct (lookup_lt_is_Some_2 doc i ltac:(lia)) as [row Hrow].
    cbn [texts_loop]. rewrite (getTodoText_row doc i row Hrow).
    cbn [mbind result_bind]. rewrite IH by lia.
    rewrite (drop_S doc row i Hrow). cbn [take map].
    now rewrite <- app_assoc.
Qed.

Lemma nth_row (doc : list li) (i : nat) (row : li) :
  doc !! i = Some row -> Selector.nth i (todoItems doc) = [(i, row)].
Proof.
  intros H. unfold Selector.nth. now rewrite TodosFacts.todoItems_lookup, H.
Qed.

Lemma forallb_take_none (txt : string) (doc : list li) (i : nat) :
  (forall (j : nat) (r : li),
     j < i -> doc !! j = Some r -> Str.includes txt (label_text r) = false) ->
  forallb (fun r => negb (Str.includes txt (label_text r))) (take i doc) = true.
Proof.
  intros H. apply forallb_forall. intros r Hr.
  apply list_elem_of_In, list_elem_of_lookup in Hr as [j Hj].
  apply lookup_take_Some in Hj as [Hj Hlt].
  now rewrite (H j r Hlt Hj).
Qed.

Lemma first_at (txt : string) (doc : list li) (i : nat) (row : li) :
  doc !! i = Some row ->
  Str.includes txt (label_text row) = true ->
  (forall (j : nat) (r : li),
     j < i -> doc !! j = Some r -> Str.includes txt (label_text r) = false) ->
  Selector.first (getTodoByText txt doc) = Ok (i, row).
Proof.
  intros Hrow Hmatch Hleast.
  rewrite <- (take_drop_middle doc i row Hrow) at 1.
  rewrite TodosFacts.first_split;
    [|now apply forallb_take_none | exact Hmatch].
  rewrite length_take_le; [reflexivity|].
  apply Nat.lt_le_incl. eapply lookup_lt_Some; eauto.
Qed.

End TodosReadFacts.

(** X4: [getAllTodoTexts()] returns the label text of every row, in the
    order of the rows; it never fails on a list that stands still. *)
Theorem getAllTodoTexts_lists_labels (doc : list TodoApp.li) :
  TodosPage.getAllTodoTexts doc = Ok (map TodoApp.label_text doc).
Proof.
  unfold TodosPage.getAllTodoTexts.
  rewrite TodosReadFacts.texts_loop_collects
    by (rewrite TodosFacts.getTodoCount_length; lia).
  rewrite TodosFacts.getTodoCount_length, drop_0, firstn_all. reflexivity.
Qed.

(** X5: [isTodoCompleted(index)] and [getTodoText(index)] read the row at
    [index] when [index] is below [getTodoCount()], a missing [aria-checked]
    or any value other than the string true counting as not completed; at
    and above the count both fail, no element being matched. *)
Theorem row_reads_within_bounds (index : nat) (doc : list TodoApp.li) :
  (index < TodosPage.getTodoCount doc ->
   exists row : TodoApp.li,
     doc !! index = Some row /\
     TodosPage.isTodoCompleted index doc
     = Ok (bool_decide (TodoApp.aria_checked row = Some "true")) /\
     TodosPage.getTodoText index doc = Ok (TodoApp.label_text row)) /\
  (TodosPage.getTodoCount doc <= index ->
   TodosPage.isTodoCompleted index doc = Throw Selector.no_match /\
   TodosPage.getTodoText index doc = Throw Selector.no_match).
Proof.
  rewrite TodosFacts.getTodoCount_length. split.
  - intros Hlt. destruct (lookup_lt_is_Some_2 doc index Hlt) as [row Hrow].
    exists row. split; [exact Hrow|]. split.
    + now apply TodosFacts.isTodoCompleted_row.
    + now apply TodosReadFacts.getTodoText_row.
  - intros Hge. pose proof (lookup_ge_None_2 doc index Hge) as Hnone. split.
    + now apply TodosFacts.isTodoCompleted_out_of_range.
    + now apply TodosReadFacts.getTodoText_out_of_range.
Qed.

Lemma row_reads_within_bounds_witness :
  (exists row : TodoApp.li,
     [ {| TodoApp.label_text := "Buy milk"; TodoApp.label_class := "";
          TodoApp.aria_checked := Some "mixed" |} ] !! 0 = Some row /\
     TodosPage.isTodoCompleted 0
       [ {| TodoApp.label_text := "Buy milk"; TodoApp.label_class := "";
            TodoApp.aria_checked := Some "mixed" |} ]
     = Ok (bool_decide (TodoApp.aria_checked row = Some "true")) /\
     TodosPage.getTodoText 0
       [ {| TodoApp.label_text := "Buy milk"; TodoApp.label_class := "";
            TodoApp.aria_checked := Some "mixed" |} ]
     = Ok (TodoApp.label_text row)) /\
  (TodosPage.isTodoCompleted 1
     [ {| TodoApp.label_text := "Buy milk"; TodoApp.label_class := "";
          TodoApp.aria_checked := Some "mixed" |} ] = Throw Selector.no_match /\
   TodosPage.getTodoText 1
     [ {| TodoApp.label_text := "Buy milk"; TodoApp.label_class := "";
          TodoApp.aria_checked := Some "mixed" |} ] = Throw Selector.no_match).
Proof.
  split.
  - apply (proj1 (row_reads_within_bounds 0 _)). vm_compute. lia.
  - apply (proj2 (row_reads_within_bounds 1
       [ {| TodoApp.label_text := "Buy milk"; TodoApp.label_class := "";
            TodoApp.aria_checked := Some "mixed" |} ])).
    vm_compute. lia.
Defined.

(** X6: [getCompletedTodosCount()] returns the number of rows whose checkbox
    carries [aria-checked] equal to the string true. *)
Theorem getCompletedTodosCount_is_checked_rows (doc : list TodoApp.li) :
  TodosPage.getCompletedTodosCount doc
  = Ok (length (List.filter
                  (fun row => bool_decide (TodoApp.aria_checked row = Some "true"))
                  doc)).
Proof. apply TodosFacts.getCompletedTodosCount_counts. Qed.

(** X7: [todoExists(text)] is true exactly when the label of some row
    contains [text] somewhere, not only when it equals it; with the empty
    text it is true on every list that has a row. *)
Theorem todoExists_is_containment (txt : string) (doc : list TodoApp.li) :
  (TodosPage.todoExists txt doc = true <->
   exists (row : TodoApp.li) (pre post : string),
     In row doc /\ TodoApp.label_text row = pre +:+ txt +:+ post) /\
  (TodosPage.todoExists "" doc = true <-> doc <> []).
Proof.
  rewrite !TodosFacts.todoExists_existsb. split.
  - rewrite existsb_exists. split.
    + intros (row & Hin & Hrow). apply StrFacts.includes_spec in Hrow as (pre & post & H).
      now exists row, pre, post.
    + intros (row & pre & post & Hin & H). exists row. split; [exact Hin|].
      apply StrFacts.includes_spec. now exists pre, post.
  - destruct doc as [|row doc]; simpl.
    + split; [discriminate | congruence].
    + split; [discriminate|]. intros _.
      now rewrite StrFacts.includes_unfold.
Qed.

(** X8: [toggleTodoByText(text)] and [deleteTodoByText(text)] act on the
    first row whose label contains [text]: they do what [toggleTodo(i)] and
    [deleteTodo(i)] do for the least such index [i], and they fail when no
    row contains [text]. *)
Theorem byText_is_first_index (txt : string) (s : TodoApp.state) :
  (forall (i : nat) (row : TodoApp.li),
     TodoApp.document s !! i = Some row ->
     Str.includes txt (TodoApp.label_text row) = true ->
     (forall (j : nat) (r : TodoApp.li),
        j < i -> TodoApp.document s !! j = Some r ->
        Str.includes txt (TodoApp.label_text r) = false) ->
     TodosPage.toggleTodoByText txt s = TodosPage.toggleTodo i s /\
     TodosPage.deleteTodoByText txt s = TodosPage.deleteTodo i s) /\
  (TodosPage.todoExists txt (TodoApp.document s) = false ->
   TodosPage.toggleTodoByText txt s = Throw Selector.no_match /\
   TodosPage.deleteTodoByText txt s = Throw Selector.no_match).
Proof.
  split.
  - intros i row Hrow Hmatch Hleast.
    unfold TodosPage.toggleTodoByText, TodosPage.deleteTodoByText,
      TodosPage.toggleTodo, TodosPage.deleteTodo.
    rewrite (TodosReadFacts.nth_row _ i row Hrow).
    rewrite (TodosReadFacts.first_at txt _ i row Hrow Hmatch Hleast).
    split; reflexivity.
  - intros Hnone.
    unfold TodosPage.toggleTodoByText, TodosPage.deleteTodoByText.
    now rewrite (TodosFacts.first_none txt _ Hnone).
Qed.

Lemma byText_is_first_index_witness :
  TodosPage.toggleTodoByText "milk"
    {| TodoApp.todos :=
         [{| TodoApp.id := 1; TodoApp.text := "Walk"; TodoApp.completed := false |};
          {| TodoApp.id := 2; TodoApp.text := "Buy milk"; TodoApp.completed := false |};
          {| TodoApp.id := 3; TodoApp.text := "Warm milk"; TodoApp.completed := false |}];
       TodoApp.next_id := 4; TodoApp.newTodoText := "" |}
  = TodosPage.toggleTodo 1
      {| TodoApp.todos :=
           [{| TodoApp.id := 1; TodoApp.text := "Walk"; TodoApp.completed := false |};
            {| TodoApp.id := 2; TodoApp.text := "Buy milk"; TodoApp.completed := false |};
            {| TodoApp.id := 3; TodoApp.text := "Warm milk"; TodoApp.completed := false |}];
         TodoApp.next_id := 4; TodoApp.newTodoText := "" |} /\
  TodosPage.deleteTodoByText "milk"
    {| TodoApp.todos :=
         [{| TodoApp.id := 1; TodoApp.text := "Walk"; TodoApp.completed := false |};
          {| TodoApp.id := 2; TodoApp.text := "Buy milk"; TodoApp.completed := false |};
          {| TodoApp.id := 3; TodoApp.text := "Warm milk"; TodoApp.completed := false |}];
       TodoApp.next_id := 4; TodoApp.newTodoText := "" |}
  = TodosPage.deleteTodo 1
      {| TodoApp.todos :=
           [{| TodoApp.id := 1; TodoApp.text := "Walk"; TodoApp.completed := false |};
            {| TodoApp.id := 2; TodoApp.text := "Buy milk"; TodoApp.completed := false |};
            {| TodoApp.id := 3; TodoApp.text := "Warm milk"; TodoApp.completed := false |}];
         TodoApp.next_id := 4; TodoApp.newTodoText := "" |}.
Proof.
  apply (proj1 (byText_is_first_index "milk" _) 1
           (TodoApp.render
              {| TodoApp.id := 2; TodoApp.text := "Buy milk"; TodoApp.completed := false |})).
  - reflexivity.
  - reflexivity.
  - intros j r Hj. destruct j as [|j]; [|lia]. intros [= <-]. reflexivity.
Defined.

(** ** The polling loops *)

Module WaitFacts.





End WaitFacts.




(** ** Splitting and joining strings *)

Module SplitFacts.

Import Str.

Lemma append_assoc (a b c : string) : (a +:+ b) +:+ c = a +:+ (b +:+ c).
Proof.
  induction a as [|x a IH]; [reflexivity|].
  change (String x ((a +:+ b) +:+ c) = String x (a +:+ (b +:+ c))).
  now rewrite IH.
Qed.

Lemma rev_app_rev_app (a b c : string) :
  String.rev_app (String.rev_app a b) c = String.rev_app b (a +:+ c).
Proof.
  revert b c. induction a as [|x a IH]; intros b c; [reflexivity|].
  simpl. now rewrite IH.
Qed.

Lemma rev_app_append (cur acc a : string) :
  String.rev_app cur acc +:+ a = String.rev_app cur (acc +:+ a).
Proof.
  revert acc. induction cur as [|x cur IH]; intros acc; [reflexivity|].
  simpl. now rewrite IH.
Qed.

Lemma rev_rev_app (a cur : string) :
  String.rev (String.rev_app a cur) = String.rev cur +:+ a.
Proof.
  unfold String.rev. rewrite rev_app_rev_app, rev_app_append.
  now rewrite StrFacts.append_empty_r.
Qed.

Lemma rev_rev (a : string) : String.rev (String.rev a) = a.
Proof. unfold String.rev at 2. now rewrite rev_rev_app. Qed.

Lemma free_of_app (sep : ascii) (a b : string) :
  free_of sep (a +:+ b) = free_of sep a && free_of sep b.
Proof.
  unfold free_of. induction a as [|x a IH]; [reflexivity|].
  change (all (fun c => negb (Ascii.eqb c sep)) (String x (a +:+ b))
          = all (fun c => negb (Ascii.eqb c sep)) (String x a)
            && all (fun c => negb (Ascii.eqb c sep)) b).
  simpl. now rewrite IH, andb_assoc.
Qed.

(** A stretch without the separator goes to the segment being read. *)
Lemma split_go_free (sep : ascii) (a : string) :
  forall cur rest : string,
    free_of sep a = true ->
    split_go sep cur (a +:+ rest) = split_go sep (String.rev_app a cur) rest.
Proof.
  induction a as [|x a IH]; intros cur rest Hfree; [reflexivity|].
  unfold free_of in Hfree. simpl in Hfree. apply andb_prop in Hfree as [Hx Ha].
  change (split_go sep cur (String x (a +:+ rest))
          = split_go sep (String.rev_app a (String x cur)) rest).
  simpl. apply negb_true_iff in Hx. rewrite Hx. now apply IH.
Qed.

Lemma split_free (sep : ascii) (a : string) :
  free_of sep a = true -> split sep a = [a].
Proof.
  intros Hfree. unfold split.
  rewrite <- (StrFacts.append_empty_r a) at 1.
  rewrite (split_go_free sep a _ _ Hfree). simpl.
  now rewrite rev_rev_app.
Qed.

Lemma split_cons (sep : ascii) (a rest : string) :
  free_of sep a = true ->
  split sep (a +:+ String sep rest) = a :: split sep rest.
Proof.
  intros Hfree. unfold split.
  rewrite (split_go_free sep a _ _ Hfree). simpl.
  rewrite Ascii.eqb_refl. now rewrite rev_rev_app.
Qed.

(** [join] with a one-character separator is undone by [split] when no
    part holds the separator. *)
Lemma split_join (sep : ascii) (p : string) (ps : list string) :
  Forall (fun q => free_of sep q = true) (p :: ps) ->
  split sep (join (String sep EmptyString) (p :: ps)) = p :: ps.
Proof.
  revert p. induction ps as [|q ps IH]; intros p Hfree.
  - apply split_free. now inversion Hfree.
  - change (join (String sep EmptyString) (p :: q :: ps))
      with (p +:+ String sep EmptyString +:+ join (String sep EmptyString) (q :: ps)).
    change (String sep EmptyString +:+ join (String sep EmptyString) (q :: ps))
      with (String sep (join (String sep EmptyString) (q :: ps))).
    inversion Hfree as [|? ? Hp Hrest]; subst.
    rewrite (split_cons sep p _ Hp). f_equal. now apply IH.
Qed.

End SplitFacts.

(** X11: [elementHasClass(selector, className)] compares [className] with
    the whole names of the [class] attribute of the first matched element:
    for an attribute that lists non-empty names separated by single spaces
    it is true exactly when [className] is one of them. It is false for a
    missing or empty attribute and fails when nothing is matched. *)
Theorem elementHasClass_whole_names
  (className token : string) (tokens : list string) (others : list (option string)) :
  Forall (fun q => q <> "" /\ Str.free_of " " q = true) (token :: tokens) ->
  BasePage.elementHasClass (Some (Str.join " " (token :: tokens)) :: others) className
  = Ok (bool_decide (className ∈ token :: tokens)) /\
  BasePage.elementHasClass (None :: others) className = Ok false /\
  BasePage.elementHasClass (Some "" :: others) className = Ok false /\
  BasePage.elementHasClass [] className = Throw Selector.no_match.
Proof.
  intros Hok. split; [|repeat split].
  unfold BasePage.elementHasClass. cbn [Selector.first mbind result_bind].
  assert (Hne : Str.is_empty (Str.join " " (token :: tokens)) = false).
  { inversion Hok as [|? ? [Htoken _] _]; subst.
    destruct token as [|c token]; [congruence|].
    destruct tokens; reflexivity. }
  rewrite Hne. rewrite SplitFacts.split_join; [reflexivity|].
  eapply Forall_impl; [exact Hok|]. intros q [_ Hq]. exact Hq.
Qed.

Lemma elementHasClass_whole_names_witness :
  BasePage.elementHasClass
    [Some (Str.join " " ["flex"; "text-red-500"; "mt-2"])] "text-red"
  = Ok (bool_decide ("text-red" ∈ ["flex"; "text-red-500"; "mt-2"])) /\
  BasePage.elementHasClass [None] "text-red" = Ok false /\
  BasePage.elementHasClass [Some ""] "text-red" = Ok false /\
  BasePage.elementHasClass [] "text-red" = Throw Selector.no_match.
Proof.
  apply (elementHasClass_whole_names "text-red" "flex" ["text-red-500"; "mt-2"] []).
  repeat constructor; discriminate.
Defined.

(** ** The data generators *)

Module GeneratorFacts.

Import Str.

Local Abbreviation digit :=
  (fun c : ascii => match Ascii.is_nat c with Some _ => true | None => false end).

Lemma all_app (f : ascii -> bool) (a b : string) :
  all f (a +:+ b) = all f a && all f b.
Proof.
  induction a as [|x a IH]; [reflexivity|].
  change (all f (String x (a +:+ b)) = all f (String x a) && all f b).
  simpl. now rewrite IH, andb_assoc.
Qed.

Lemma all_impl (f g : ascii -> bool) (s : string) :
  (forall c, f c = true -> g c = true) -> all f s = true -> all g s = true.
Proof.
  intros Hfg. induction s as [|x s IH]; [reflexivity|]. simpl.
  intros H. apply andb_prop in H as [Hx Hs]. now rewrite (Hfg x Hx), IH.
Qed.

Lemma pretty_N_char_digit (d : N) : digit (pretty_N_char d) = true.
Proof.
  destruct d as [|p]; [reflexivity|].
  do 4 (try (destruct p as [p|p|]; try reflexivity)).
Qed.

(** The decimal printer puts digits, and at least one for a positive number,
    in front of its accumulator. *)
Lemma pretty_N_go_digits (x : N) :
  forall s : string,
    exists ds : string,
      pretty_N_go x s = ds +:+ s /\ all digit ds = true /\
      ((0 < x)%N -> ds <> "").
Proof.
  induction (N.lt_wf_0 x) as [x _ IH]. intros s.
  destruct (N.eq_dec x 0%N) as [->|Hne].
  - exists "". rewrite pretty_N_go_0. repeat split. lia.
  - rewrite pretty_N_go_step by lia.
    destruct (IH (x `div` 10)%N ltac:(apply N.div_lt; lia)
                (String (pretty_N_char (x `mod` 10)) s)) as (ds & Hds & Hall & _).
    exists (ds +:+ String (pretty_N_char (x `mod` 10)) "").
    rewrite Hds, SplitFacts.append_assoc. split; [reflexivity|]. split.
    + rewrite all_app, Hall. simpl. now rewrite pretty_N_char_digit.
    + intros _. destruct ds; discriminate.
Qed.

Lemma pretty_positive_digits (p : positive) :
  exists ds : string, pretty p = ds /\ all digit ds = true /\ ds <> "".
Proof.
  unfold pretty, pretty_positive, pretty, pretty_N.
  destruct (decide (N.pos p = 0%N)) as [Hz|_]; [discriminate|].
  destruct (pretty_N_go_digits (N.pos p) "") as (ds & Hds & Hall & Hne).
  exists ds. rewrite Hds, StrFacts.append_empty_r. auto using Hne with lia.
Qed.

(** The text printed for an integer: digits, after a minus sign for a
    negative one. *)
Lemma pretty_Z_shape (z : Z) :
  exists ds : string,
    all digit ds = true /\ ds <> "" /\
    pretty z = if (z <? 0)%Z then String "-" ds else ds.
Proof.
  destruct z as [|p|p]; simpl.
  - now exists "0".
  - destruct (pretty_positive_digits p) as (ds & Hds & Hall & Hne).
    exists ds. repeat split; assumption.
  - destruct (pretty_positive_digits p) as (ds & Hds & Hall & Hne).
    exists ds. repeat split; try assumption.
    unfold pretty, pretty_Z. fold (pretty p). now rewrite Hds.
Qed.

Lemma digit_not_space (c : ascii) : digit c = true -> negb (Ascii.eqb c " ") = true.
Proof. destruct c as [[] [] [] [] [] [] [] []]; simpl; congruence. Qed.

Lemma digit_not_dash (c : ascii) : digit c = true -> negb (Ascii.eqb c "-") = true.
Proof. destruct c as [[] [] [] [] [] [] [] []]; simpl; congruence. Qed.

Lemma pretty_Z_free_of_space (z : Z) : free_of " " (pretty z) = true.
Proof.
  destruct (pretty_Z_shape z) as (ds & Hall & _ & ->).
  pose proof (all_impl _ _ ds digit_not_space Hall) as Hfree.
  destruct (z <? 0)%Z; [|exact Hfree]. unfold free_of. simpl. exact Hfree.
Qed.

(** Two strings that agree after a first separator agree before it. *)
Lemma cut_at (sep : ascii) (a b x y : string) :
  free_of sep a = true -> free_of sep b = true ->
  a +:+ String sep x = b +:+ String sep y -> a = b /\ x = y.
Proof.
  revert b. induction a as [|c a IH]; intros b Ha Hb H.
  - destruct b as [|d b]; [now injection H|].
    change (String sep x = String d (b +:+ String sep y)) in H.
    injection H as <- _. unfold free_of in Hb. simpl in Hb.
    now rewrite Ascii.eqb_refl in Hb.
  - destruct b as [|d b].
    + change (String c (a +:+ String sep x) = String sep y) in H.
      injection H as -> _. unfold free_of in Ha. simpl in Ha.
      now rewrite Ascii.eqb_refl in Ha.
    + change (String c (a +:+ String sep x) = String d (b +:+ String sep y)) in H.
      injection H as <- H. unfold free_of in Ha, Hb. simpl in Ha, Hb.
      apply andb_prop in Ha as [_ Ha]. apply andb_prop in Hb as [_ Hb].
      destruct (IH b Ha Hb H) as [-> ->]. auto.
Qed.

Lemma length_append (a b : string) :
  String.length (a +:+ b) = String.length a + String.length b.
Proof.
  induction a as [|c a IH]; [reflexivity|].
  change (S (String.length (a +:+ b)) = S (String.length a + String.length b)).
  now rewrite IH.
Qed.

Lemma append_inj_r (a b t : string) : a +:+ t = b +:+ t -> a = b.
Proof.
  revert b. induction a as [|c a IH]; intros b H.
  - destruct b as [|d b]; [reflexivity|].
    apply (f_equal String.length) in H. rewrite !length_append in H.
    simpl in H. lia.
  - destruct b as [|d b].
    + apply (f_equal String.length) in H. rewrite !length_append in H.
      simpl in H. lia.
    + change (String c (a +:+ t) = String d (b +:+ t)) in H.
      injection H as <- H. now rewrite (IH b H).
Qed.

(** The number printed in front of a dash is read back without doubt. *)
Lemma pretty_Z_cut_dash (n1 n2 : Z) (x y : string) :
  pretty n1 +:+ String "-" x = pretty n2 +:+ String "-" y -> n1 = n2 /\ x = y.
Proof.
  destruct (pretty_Z_shape n1) as (d1 & Hall1 & Hne1 & H1).
  destruct (pretty_Z_shape n2) as (d2 & Hall2 & Hne2 & H2).
  pose proof (all_impl _ _ d1 digit_not_dash Hall1) as Hf1.
  pose proof (all_impl _ _ d2 digit_not_dash Hall2) as Hf2.
  intros H.
  assert (Hpretty : pretty n1 = pretty n2 /\ x = y).
  { rewrite H1, H2 in H |- *.
    destruct (n1 <? 0)%Z, (n2 <? 0)%Z.
    - change (String "-" (d1 +:+ String "-" x) = String "-" (d2 +:+ String "-" y)) in H.
      injection H as H. destruct (cut_at "-" d1 d2 x y Hf1 Hf2 H) as [-> ->]. auto.
    - destruct d2 as [|c d2]; [congruence|].
      change (String "-" (d1 +:+ String "-" x) = String c (d2 +:+ String "-" y)) in H.
      injection H as <- _. unfold free_of in Hf2. simpl in Hf2. discriminate.
    - destruct d1 as [|c d1]; [congruence|].
      change (String c (d1 +:+ String "-" x) = String "-" (d2 +:+ String "-" y)) in H.
      injection H as -> _. unfold free_of in Hf1. simpl in Hf1. discriminate.
    - destruct (cut_at "-" d1 d2 x y Hf1 Hf2 H) as [-> ->]. auto. }
  destruct Hpretty as [Hp ->]. split; [|reflexivity].
  now apply (inj pretty).
Qed.

End GeneratorFacts.

(** X12: the generators give different data for different inputs: a name or
    a password is returned for one timestamp only, a todo text or an email
    for one pair of timestamp and random suffix only. *)
Theorem generators_injective :
  (forall n1 n2 : Z,
     TestHelpers.generateName n1 = TestHelpers.generateName n2 -> n1 = n2) /\
  (forall n1 n2 : Z,
     TestHelpers.generatePassword n1 = TestHelpers.generatePassword n2 -> n1 = n2) /\
  (forall (n1 n2 : Z) (s1 s2 : string),
     TestHelpers.generateTodoText n1 s1 = TestHelpers.generateTodoText n2 s2 ->
     n1 = n2 /\ s1 = s2) /\
  (forall (n1 n2 : Z) (s1 s2 : string),
     TestHelpers.generateEmail n1 s1 = TestHelpers.generateEmail n2 s2 ->
     n1 = n2 /\ s1 = s2).
Proof.
  split; [|split; [|split]].
  - intros n1 n2 H. unfold TestHelpers.generateName in H.
    apply (inj (String.app _)) in H. now apply (inj pretty).
  - intros n1 n2 H. unfold TestHelpers.generatePassword in H.
    apply (inj (String.app _)) in H.
    apply GeneratorFacts.append_inj_r in H. now apply (inj pretty).
  - intros n1 n2 s1 s2 H. unfold TestHelpers.generateTodoText in H.
    apply (inj (String.app _)) in H.
    destruct (GeneratorFacts.cut_at " " (pretty n1) (pretty n2)
                ("- " +:+ s1) ("- " +:+ s2)
                (GeneratorFacts.pretty_Z_free_of_space n1)
                (GeneratorFacts.pretty_Z_free_of_space n2) H) as [Hp Hs].
    split; [now apply (inj pretty)|].
    now apply (inj (String.app _)) in Hs.
  - intros n1 n2 s1 s2 H. unfold TestHelpers.generateEmail in H.
    apply (inj (String.app _)) in H.
    destruct (GeneratorFacts.pretty_Z_cut_dash n1 n2
                (s1 +:+ "@example.com") (s2 +:+ "@example.com") H) as [Hn Hs].
    split; [exact Hn|]. now apply GeneratorFacts.append_inj_r in Hs.
Qed.

(** ** [DashboardPage]: the name in the welcome message *)

Module WelcomeFacts.

Import DashboardPage.

Lemma match_Welcome_absent (message : string) :
  Str.includes "Welcome " message = false -> match_Welcome message = None.
Proof.
  induction message as [|c message IH];
    rewrite StrFacts.includes_unfold, DashboardFacts.match_Welcome_unfold;
    intros H; apply orb_false_elim in H as [Hhere Hlater].
  - reflexivity.
  - unfold Str.starts_with in Hhere.
    destruct (Str.strip_prefix "Welcome " (String c message)); [discriminate|].
    now apply IH.
Qed.

End WelcomeFacts.

(** X13: on a loaded dashboard whose welcome paragraph reads Welcome,
    a space and a name, the name being non-empty and on one line,
    [getUserName()] returns that name, [verifyUserLoggedIn(name)] returns
    true, and [verifyUserLoggedIn(other)] returns false for every other
    non-empty name. *)
Theorem welcome_name_round_trip (name : string) (d : DashboardPage.document) :
  DashboardPage.isLoaded d = true ->
  DashboardPage.getWelcomeMessage d = Ok ("Welcome " +:+ name) ->
  name <> "" -> Str.no_line_terminator name = true ->
  DashboardPage.getUserName d = Ok (Some name) /\
  DashboardPage.verifyUserLoggedIn (Some name) d = Ok true /\
  (forall other : string,
     other <> "" -> other <> name ->
     DashboardPage.verifyUserLoggedIn (Some other) d = Ok false).
Proof.
  intros Hloaded Hmessage Hne Hline.
  assert (Hname : DashboardPage.getUserName d = Ok (Some name)).
  { unfold DashboardPage.getUserName. rewrite Hmessage.
    cbn [mbind result_bind].
    now rewrite (DashboardFacts.match_Welcome_rendered name Hne Hline). }
  split; [exact Hname|]. split.
  - rewrite (DashboardFacts.verify_named name d Hloaded Hne), Hname. simpl.
    now rewrite bool_decide_eq_true_2.
  - intros other Hother Hdiff.
    rewrite (DashboardFacts.verify_named other d Hloaded Hother), Hname. simpl.
    now rewrite bool_decide_eq_false_2 by congruence.
Qed.

Lemma welcome_name_round_trip_witness :
  DashboardPage.getUserName
    {| DashboardPage.h1 := ["Dashboard"];
       DashboardPage.p := ["Welcome Test User 1700000000000"; "API: This is private"] |}
  = Ok (Some "Test User 1700000000000") /\
  DashboardPage.verifyUserLoggedIn (Some "Test User 1700000000000")
    {| DashboardPage.h1 := ["Dashboard"];
       DashboardPage.p := ["Welcome Test User 1700000000000"; "API: This is private"] |}
  = Ok true /\
  (forall other : string,
     other <> "" -> other <> "Test User 1700000000000" ->
     DashboardPage.verifyUserLoggedIn (Some other)
       {| DashboardPage.h1 := ["Dashboard"];
          DashboardPage.p := ["Welcome Test User 1700000000000"; "API: This is private"] |}
     = Ok false).
Proof.
  apply (welcome_name_round_trip "Test User 1700000000000"
           {| DashboardPage.h1 := ["Dashboard"];
              DashboardPage.p := ["Welcome Test User 1700000000000"; "API: This is private"] |});
    [reflexivity | reflexivity | discriminate | reflexivity].
Defined.

(** X14: a name [getUserName()] returns stands in the welcome message right
    after the word Welcome and one space, is not empty, holds no line break
    and runs to the end of its line; when the message holds no Welcome
    followed by a space, [getUserName()] returns null. *)
Theorem getUserName_capture (d : DashboardPage.document) (message : string) :
  DashboardPage.getWelcomeMessage d = Ok message ->
  (forall name : string,
     DashboardPage.getUserName d = Ok (Some name) ->
     exists pre post : string,
       message = pre +:+ "Welcome " +:+ name +:+ post /\
       name <> "" /\
       Str.no_line_terminator name = true /\
       (post = "" \/
        exists c rest, post = String c rest /\ Str.line_terminator c = true)) /\
  (Str.includes "Welcome " message = false ->
   DashboardPage.getUserName d = Ok None).
Proof.
  intros Hmessage. unfold DashboardPage.getUserName. rewrite Hmessage.
  cbn [mbind result_bind]. split.
  - intros name [= Hname]. now apply DashboardFacts.match_Welcome_sound.
  - intros Habsent. now rewrite (WelcomeFacts.match_Welcome_absent message Habsent).
Qed.

Lemma getUserName_capture_witness :
  (forall name : string,
     DashboardPage.getUserName
       {| DashboardPage.h1 := ["Dashboard"]; DashboardPage.p := ["Welcome"] |}
     = Ok (Some name) ->
     exists pre post : string,
       "Welcome" = pre +:+ "Welcome " +:+ name +:+ post /\
       name <> "" /\
       Str.no_line_terminator name = true /\
       (post = "" \/
        exists c rest, post = String c rest /\ Str.line_terminator c = true)) /\
  (Str.includes "Welcome " "Welcome" = false ->
   DashboardPage.getUserName
     {| DashboardPage.h1 := ["Dashboard"]; DashboardPage.p := ["Welcome"] |}
   = Ok None).
Proof.
  apply (getUserName_capture
           {| DashboardPage.h1 := ["Dashboard"]; DashboardPage.p := ["Welcome"] |}
           "Welcome").
  reflexivity.
Defined.

(** ** Cookies: the guest role, [logout] and [clearAllCookies] *)

Module CookieStrings.

Import Str Browser.

Lemma drop_spaces_head (c : ascii) (s : string) :
  negb (Ascii.eqb c " ") = true -> drop_spaces (String c s) = String c s.
Proof. destruct c as [[] [] [] [] [] [] [] []]; simpl; congruence. Qed.

Lemma drop_spaces_free (s : string) : free_of " " s = true -> drop_spaces s = s.
Proof.
  destruct s as [|c s]; [reflexivity|]. unfold free_of. simpl.
  intros H. apply andb_prop in H as [Hc _]. now apply drop_spaces_head.
Qed.

Lemma rev_app_append_l (a acc : string) :
  String.rev_app a acc = String.rev a +:+ acc.
Proof. unfold String.rev. now rewrite SplitFacts.rev_app_append. Qed.

Lemma rev_app_app (a b acc : string) :
  String.rev_app (a +:+ b) acc = String.rev_app b (String.rev_app a acc).
Proof.
  revert acc. induction a as [|x a IH]; intros acc; [reflexivity|].
  change (String.rev_app (a +:+ b) (String x acc)
          = String.rev_app b (String.rev_app a (String x acc))).
  apply IH.
Qed.

Lemma rev_append (a b : string) :
  String.rev (a +:+ b) = String.rev b +:+ String.rev a.
Proof.
  unfold String.rev at 1. rewrite rev_app_app.
  now rewrite rev_app_append_l.
Qed.

Lemma free_of_rev_app (sep : ascii) (a : string) :
  forall acc : string,
    free_of sep (String.rev_app a acc) = free_of sep a && free_of sep acc.
Proof.
  induction a as [|x a IH]; intros acc; [reflexivity|].
  simpl. rewrite IH. unfold free_of. simpl.
  destruct (negb (Ascii.eqb x sep)), (all _ a), (all _ acc); reflexivity.
Qed.

Lemma free_of_rev (sep : ascii) (a : string) :
  free_of sep (String.rev a) = free_of sep a.
Proof. unfold String.rev. rewrite free_of_rev_app. apply andb_true_r. Qed.

Lemma trim_free (s : string) : free_of " " s = true -> trim s = s.
Proof.
  intros Hfree. unfold trim. rewrite (drop_spaces_free s Hfree).
  rewrite drop_spaces_free by now rewrite free_of_rev.
  apply SplitFacts.rev_rev.
Qed.

(** What is dropped in front of a word that does not start with a space
    leaves the word. *)
Lemma drop_spaces_before (x : string) (c : ascii) (y : string) :
  negb (Ascii.eqb c " ") = true ->
  exists x' : string, drop_spaces (x +:+ String c y) = x' +:+ String c y.
Proof.
  intros Hc. induction x as [|d x IH].
  - exists "". now apply drop_spaces_head.
  - destruct (Ascii.eqb_spec d " ") as [->|Hd].
    + destruct IH as [x' Hx']. exists x'. exact Hx'.
    + exists (String d x).
      change (drop_spaces (String d (x +:+ String c y)) = String d (x +:+ String c y)).
      apply drop_spaces_head. now apply negb_true_iff, Ascii.eqb_neq.
Qed.

(** [trim] keeps a leading word that holds no space. *)
Lemma trim_keeps_prefix (p t : string) :
  p <> "" -> free_of " " p = true ->
  exists u : string, trim (p +:+ t) = p +:+ u.
Proof.
  intros Hne Hfree. unfold trim.
  assert (Hhead : drop_spaces (p +:+ t) = p +:+ t).
  { destruct p as [|c p]; [congruence|].
    unfold free_of in Hfree. simpl in Hfree. apply andb_prop in Hfree as [Hc _].
    now apply (drop_spaces_head c (p +:+ t)). }
  rewrite Hhead, rev_append.
  destruct (String.rev p) as [|c y] eqn:Hrev.
  - exfalso. apply Hne. rewrite <- (SplitFacts.rev_rev p), Hrev. reflexivity.
  - assert (Hc : negb (Ascii.eqb c " ") = true).
    { pose proof (free_of_rev " " p) as H. rewrite Hrev, Hfree in H.
      unfold free_of in H. simpl in H. now apply andb_prop in H as [Hc _]. }
    destruct (drop_spaces_before (String.rev t) c y Hc) as [x' ->].
    rewrite rev_append, <- Hrev, SplitFacts.rev_rev. now exists (String.rev x').
Qed.

Lemma cut_eq_name (n r : string) :
  free_of "=" n = true -> cut_eq (n +:+ String "=" r) = Some (n, r).
Proof.
  induction n as [|c n IH]; [reflexivity|].
  unfold free_of. simpl. intros H. apply andb_prop in H as [Hc Hn].
  change (cut_eq (String c (n +:+ String "=" r)) = Some (String c n, r)).
  simpl. apply negb_true_iff in Hc. rewrite Hc. now rewrite (IH Hn).
Qed.

Lemma drop_line_none (v : string) :
  no_line_terminator v = true -> drop_line v = "".
Proof.
  induction v as [|c v IH]; [reflexivity|]. simpl.
  intros H. apply andb_prop in H as [Hc Hv].
  apply negb_true_iff in Hc. rewrite Hc. now apply IH.
Qed.

Lemma replace_eq_rest_name (replacement n v : string) :
  free_of "=" n = true ->
  Roles.replace_eq_rest replacement (n +:+ String "=" v)
  = n +:+ replacement +:+ drop_line v.
Proof.
  induction n as [|c n IH]; [reflexivity|].
  unfold free_of. simpl. intros H. apply andb_prop in H as [Hc Hn].
  change (Roles.replace_eq_rest replacement (String c (n +:+ String "=" v))
          = String c (n +:+ replacement +:+ drop_line v)).
  simpl. apply negb_true_iff in Hc. rewrite Hc. now rewrite (IH Hn).
Qed.

(** [document.cookie], split at [;]: the first pair, then each further pair
    behind one space. *)
Lemma split_joined_pairs (ps : list string) :
  forall pre p : string,
    free_of ";" pre = true ->
    Forall (fun q => free_of ";" q = true) (p :: ps) ->
    split ";" (pre +:+ join "; " (p :: ps)) = (pre +:+ p) :: map (String " ") ps.
Proof.
  induction ps as [|q ps IH]; intros pre p Hpre Hfree;
    inversion Hfree as [|? ? Hp Hps]; subst.
  - apply SplitFacts.split_free. now rewrite SplitFacts.free_of_app, Hpre, Hp.
  - change (join "; " (p :: q :: ps))
      with (p +:+ String ";" (" " +:+ join "; " (q :: ps))).
    rewrite <- SplitFacts.append_assoc.
    rewrite SplitFacts.split_cons by now rewrite SplitFacts.free_of_app, Hpre, Hp.
    f_equal. apply (IH " " q); [reflexivity | exact Hps].
Qed.

End CookieStrings.

Module CookieJarFacts.

Import Str Browser.

Lemma name_ok_parts (n : string) :
  name_ok n = true ->
  n <> "" /\ free_of ";" n = true /\ free_of "=" n = true /\ free_of " " n = true.
Proof.
  unfold name_ok. intros H.
  apply andb_prop in H as [H Hspace]. apply andb_prop in H as [H Heq].
  apply andb_prop in H as [Hne Hsemi].
  repeat split; try assumption. intros ->. discriminate.
Qed.

(** What [assign_cookie] does once the assigned string is read as the pair
    of a name and an empty value with an [expires] attribute and the path
    [/]. *)
Lemma assign_parsed (s nv : string) (raw : list string) (l r n : string)
  (st : state) :
  split ";" s = nv :: raw ->
  cut_eq nv = Some (l, r) -> trim l = n -> trim r = "" -> n <> "" ->
  omap (strip_prefix "path=") (map trim raw) = ["/"] ->
  existsb (starts_with "expires=") (map trim raw) = true ->
  assign_cookie s st
  = if existsb (fun c => same_key n "/" c && httpOnly c) (cookies st) then st
    else {| localStorage := localStorage st;
            cookies := List.filter (fun c => negb (same_key n "/" c)) (cookies st) |}.
Proof.
  intros Hsplit Hcut Hl Hr Hne Hpath Hexp. unfold assign_cookie.
  rewrite Hsplit, Hcut, Hl, Hr, Hpath, Hexp.
  rewrite (StrFacts.is_empty_false n Hne). reflexivity.
Qed.

(** The assignment the guest role makes for a cookie name. *)
Lemma assign_guest (n utc : string) (st : state) :
  name_ok n = true -> free_of ";" utc = true ->
  assign_cookie (n +:+ "=;expires=" +:+ utc +:+ ";path=/") st
  = if existsb (fun c => same_key n "/" c && httpOnly c) (cookies st) then st
    else {| localStorage := localStorage st;
            cookies := List.filter (fun c => negb (same_key n "/" c)) (cookies st) |}.
Proof.
  intros Hn Hutc.
  destruct (name_ok_parts n Hn) as (Hne & Hsemi & Heq & Hspace).
  destruct (CookieStrings.trim_keeps_prefix "expires=" utc ltac:(discriminate) eq_refl)
    as [u Hu].
  apply (assign_parsed _ (n +:+ "=") ["expires=" +:+ utc; "path=/"] n "" n).
  - replace (n +:+ "=;expires=" +:+ utc +:+ ";path=/")
      with ((n +:+ "=") +:+ String ";" (("expires=" +:+ utc) +:+ String ";" "path=/")).
    + rewrite SplitFacts.split_cons by now rewrite SplitFacts.free_of_app, Hsemi.
      rewrite SplitFacts.split_cons by now rewrite SplitFacts.free_of_app, Hutc.
      reflexivity.
    + rewrite !SplitFacts.append_assoc. reflexivity.
  - now apply CookieStrings.cut_eq_name.
  - now apply CookieStrings.trim_free.
  - reflexivity.
  - exact Hne.
  - cbn [map]. rewrite Hu. reflexivity.
  - cbn [map existsb]. rewrite Hu, StrFacts.starts_with_app. reflexivity.
Qed.

(** The assignment [clearAllCookies] makes for a segment of
    [document.cookie]: the name, after at most one space. *)
Lemma assign_epoch (lead n : string) (st : state) :
  lead = "" \/ lead = " " -> name_ok n = true ->
  assign_cookie
    ((lead +:+ n) +:+ "=; expires=Thu, 01 Jan 1970 00:00:00 UTC; path=/;") st
  = if existsb (fun c => same_key n "/" c && httpOnly c) (cookies st) then st
    else {| localStorage := localStorage st;
            cookies := List.filter (fun c => negb (same_key n "/" c)) (cookies st) |}.
Proof.
  intros Hlead Hn.
  destruct (name_ok_parts n Hn) as (Hne & Hsemi & Heq & Hspace).
  assert (Hfree : forall sep : ascii,
             free_of sep lead = true -> free_of sep n = true ->
             free_of sep (lead +:+ n) = true).
  { intros sep H1 H2. now rewrite SplitFacts.free_of_app, H1, H2. }
  apply (assign_parsed _ ((lead +:+ n) +:+ "=")
           [" expires=Thu, 01 Jan 1970 00:00:00 UTC"; " path=/"; ""]
           (lead +:+ n) "" n).
  - replace ((lead +:+ n) +:+ "=; expires=Thu, 01 Jan 1970 00:00:00 UTC; path=/;")
      with (((lead +:+ n) +:+ "=")
            +:+ String ";" (" expires=Thu, 01 Jan 1970 00:00:00 UTC" +:+ String ";"
                              (" path=/" +:+ String ";" ""))).
    + rewrite SplitFacts.split_cons.
      * rewrite SplitFacts.split_cons by reflexivity.
        rewrite SplitFacts.split_cons by reflexivity. reflexivity.
      * rewrite SplitFacts.free_of_app, Hfree; [reflexivity | | exact Hsemi].
        destruct Hlead as [-> | ->]; reflexivity.
    + rewrite !SplitFacts.append_assoc. reflexivity.
  - apply CookieStrings.cut_eq_name. apply Hfree; [|exact Heq].
    destruct Hlead as [-> | ->]; reflexivity.
  - destruct Hlead as [-> | ->].
    + now apply CookieStrings.trim_free.
    + unfold trim. change (drop_spaces (" " +:+ n)) with (drop_spaces n).
      now apply CookieStrings.trim_free.
  - reflexivity.
  - exact Hne.
  - reflexivity.
  - reflexivity.
Qed.

End CookieJarFacts.

Module CookieLoopFacts.

Import Str Browser.

Local Abbreviation removal n st :=
  (if existsb (fun c => same_key n "/" c && httpOnly c) (cookies st) then st
   else {| localStorage := localStorage st;
           cookies := List.filter (fun c => negb (same_key n "/" c)) (cookies st) |}).

Lemma filter_filter_and {A : Type} (f g : A -> bool) (l : list A) :
  List.filter f (List.filter g l) = List.filter (fun x => g x && f x) l.
Proof.
  induction l as [|x l IH]; [reflexivity|]. simpl.
  destruct (g x); simpl; [destruct (f x)|]; now rewrite IH.
Qed.

Lemma fold_left_related {S A B : Type} (f : S -> A -> S) (g : S -> B -> S)
  (la : list A) (lb : list B) :
  Forall2 (fun a b => forall s, f s a = g s b) la lb ->
  forall s : S, fold_left f la s = fold_left g lb s.
Proof.
  induction 1 as [|a b la lb Hab _ IH]; intros s; [reflexivity|].
  simpl. now rewrite Hab, IH.
Qed.

(** Expiring the names of [cs] one after the other removes the cookies of
    those names at path [/], as long as none of them is [httpOnly]. *)
Lemma fold_removal (cs : list cookie) :
  forall st : state,
    (forall c x, In c cs -> In x (cookies st) ->
                 same_key (name c) "/" x = true -> httpOnly x = false) ->
    fold_left (fun st c => removal (name c) st) cs st
    = {| localStorage := localStorage st;
         cookies :=
           List.filter
             (fun x => negb (existsb (fun c => same_key (name c) "/" x) cs))
             (cookies st) |}.
Proof.
  induction cs as [|c cs IH]; intros st Hguard.
  - destruct st as [ls jar]. simpl. f_equal.
    induction jar as [|x jar IHjar]; [reflexivity|]. simpl. now rewrite <- IHjar.
  - cbn [fold_left].
    assert (Hfalse : existsb (fun x => same_key (name c) "/" x && httpOnly x)
                       (cookies st) = false).
    { apply not_true_is_false. intros Htrue.
      apply existsb_exists in Htrue as (x & Hx & Hkey).
      apply andb_prop in Hkey as [Hkey Hhttp].
      rewrite (Hguard c x (or_introl eq_refl) Hx Hkey) in Hhttp. discriminate. }
    rewrite Hfalse, IH.
    + cbn [localStorage cookies]. f_equal. rewrite filter_filter_and.
      apply filter_ext. intros x. cbn [existsb]. now rewrite negb_orb.
    + cbn [cookies]. intros c' x Hc' Hx. apply filter_In in Hx as [Hx _].
      apply (Hguard c' x); [now right | exact Hx].
Qed.

Lemma same_key_readable (c x : cookie) :
  readable c = true ->
  same_key (name c) "/" x = true <-> key x = key c.
Proof.
  unfold readable, same_key, key. intros Hc.
  apply andb_prop in Hc as [_ Hpath]. apply bool_decide_eq_true in Hpath.
  rewrite andb_true_iff, !bool_decide_eq_true, Hpath. split.
  - intros [-> ->]. reflexivity.
  - intros [= -> ->]. auto.
Qed.

Lemma key_unique (jar : list cookie) (c x : cookie) :
  NoDup (map key jar) -> In c jar -> In x jar -> key x = key c -> x = c.
Proof.
  induction jar as [|y jar IH]; [contradiction|]. simpl.
  intros Hnd Hc Hx Hkey. apply NoDup_cons in Hnd as [Hy Hnd].
  destruct Hc as [->|Hc], Hx as [->|Hx].
  - reflexivity.
  - exfalso. apply Hy. rewrite <- Hkey. apply list_elem_of_In.
    now apply in_map.
  - exfalso. apply Hy. rewrite Hkey. apply list_elem_of_In. now apply in_map.
  - now apply IH.
Qed.

Lemma readable_not_httpOnly (c : cookie) : readable c = true -> httpOnly c = false.
Proof.
  unfold readable. intros H. apply andb_prop in H as [H _].
  now apply negb_true_iff in H.
Qed.

Lemma pair_of_named (c : cookie) :
  name c <> "" -> pair_of c = name c +:+ String "=" (value c).
Proof. intros H. unfold pair_of. now rewrite (StrFacts.is_empty_false _ H). Qed.

Lemma pair_of_free (c : cookie) :
  name_ok (name c) = true -> value_ok (value c) = true ->
  free_of ";" (pair_of c) = true.
Proof.
  intros Hn Hv. destruct (CookieJarFacts.name_ok_parts _ Hn) as (Hne & Hsemi & _ & _).
  unfold value_ok in Hv. apply andb_prop in Hv as [Hv _].
  rewrite (pair_of_named c Hne), SplitFacts.free_of_app, Hsemi.
  unfold free_of in *. simpl. exact Hv.
Qed.

Lemma drop_spaces_word (p t : string) :
  p <> "" -> free_of " " p = true -> drop_spaces (p +:+ t) = p +:+ t.
Proof.
  intros Hne Hfree. destruct p as [|c p]; [congruence|].
  unfold free_of in Hfree. simpl in Hfree. apply andb_prop in Hfree as [Hc _].
  now apply (CookieStrings.drop_spaces_head c (p +:+ t)).
Qed.

(** The loop over the segments of [document.cookie], for a loop body [g]
    that expires the name of the cookie a segment stands for. *)
Lemma clear_loop (g : state -> string -> state) (st : state) :
  jar_ok (cookies st) ->
  (forall (c : cookie) (lead : string) (st' : state),
     name_ok (name c) = true -> value_ok (value c) = true ->
     lead = "" \/ lead = " " ->
     g st' (lead +:+ pair_of c) = removal (name c) st') ->
  (forall st' : state, g st' "" = st') ->
  fold_left g (split ";" (document_cookie st)) st
  = {| localStorage := localStorage st;
       cookies := List.filter (fun c => negb (readable c)) (cookies st) |}.
Proof.
  intros [Hnd Hok] Hg Hempty. unfold document_cookie.
  assert (Hall : Forall (fun c => name_ok (name c) = true /\ value_ok (value c) = true)
                   (List.filter readable (cookies st))).
  { apply Forall_forall. intros c Hc. apply list_elem_of_In, filter_In in Hc as [Hin Hr].
    rewrite Forall_forall in Hok. apply Hok; [now apply list_elem_of_In | exact Hr]. }
  assert (Hfinal :
            List.filter
              (fun x => negb (existsb (fun c => same_key (name c) "/" x)
                                (List.filter readable (cookies st))))
              (cookies st)
            = List.filter (fun c => negb (readable c)) (cookies st)).
  { apply filter_ext_in. intros x Hx. f_equal.
    destruct (readable x) eqn:Hrx.
    - apply existsb_exists. exists x. split; [now apply filter_In|].
      now apply (same_key_readable x x Hrx).
    - apply not_true_is_false. intros Htrue.
      apply existsb_exists in Htrue as (c & Hc & Hkey).
      apply filter_In in Hc as [Hc Hrc].
      apply (same_key_readable c x Hrc) in Hkey.
      rewrite (key_unique _ c x Hnd Hc Hx Hkey) in Hrx. congruence. }
  assert (Hguard : forall c x,
             In c (List.filter readable (cookies st)) -> In x (cookies st) ->
             same_key (name c) "/" x = true -> httpOnly x = false).
  { intros c x Hc Hx Hkey. apply filter_In in Hc as [Hc Hrc].
    apply (same_key_readable c x Hrc) in Hkey.
    rewrite (key_unique _ c x Hnd Hc Hx Hkey). now apply readable_not_httpOnly. }
  rewrite <- Hfinal, <- (fold_removal _ st Hguard).
  destruct (List.filter readable (cookies st)) as [|c cs].
  - simpl. now rewrite Hempty.
  - cbn [map].
    change (join "; " (pair_of c :: map pair_of cs))
      with ("" +:+ join "; " (pair_of c :: map pair_of cs)).
    rewrite CookieStrings.split_joined_pairs; [|reflexivity|].
    + apply fold_left_related. constructor.
      * intros s. inversion Hall as [|? ? [Hn Hv] _]; subst.
        apply (Hg c "" s Hn Hv). now left.
      * inversion Hall as [|? ? _ Hrest]; subst. clear -Hrest Hg.
        induction cs as [|c' cs IH]; [constructor|].
        inversion Hrest as [|? ? [Hn Hv] Hrest']; subst.
        cbn [map]. constructor; [|now apply IH].
        intros s. apply (Hg c' " " s Hn Hv). now right.
    + change (pair_of c :: map pair_of cs) with (map pair_of (c :: cs)).
      apply Forall_map. eapply Forall_impl; [exact Hall|].
      intros c' [Hn Hv]. now apply pair_of_free.
Qed.

(** The body of the guest role's loop. *)
Lemma guest_body (utc : string) (c : cookie) (lead : string) (st : state) :
  free_of ";" utc = true ->
  name_ok (name c) = true -> value_ok (value c) = true ->
  lead = "" \/ lead = " " ->
  assign_cookie
    (Roles.replace_eq_rest ("=;expires=" +:+ utc +:+ ";path=/")
       (Roles.replace_leading_spaces (lead +:+ pair_of c))) st
  = removal (name c) st.
Proof.
  intros Hutc Hn Hv Hlead.
  destruct (CookieJarFacts.name_ok_parts _ Hn) as (Hne & _ & Heq & Hspace).
  unfold value_ok in Hv. apply andb_prop in Hv as [_ Hline].
  assert (Hdrop : Roles.replace_leading_spaces (lead +:+ pair_of c) = pair_of c).
  { unfold Roles.replace_leading_spaces. rewrite (pair_of_named c Hne).
    destruct Hlead as [-> | ->];
      exact (drop_spaces_word (name c) (String "=" (value c)) Hne Hspace). }
  rewrite Hdrop, (pair_of_named c Hne).
  rewrite (CookieStrings.replace_eq_rest_name _ _ _ Heq).
  rewrite (CookieStrings.drop_line_none _ Hline), StrFacts.append_empty_r.
  now apply CookieJarFacts.assign_guest.
Qed.

(** The body of the loop of [clearAllCookies]. *)
Lemma epoch_body (c : cookie) (lead : string) (st : state) :
  name_ok (name c) = true -> value_ok (value c) = true ->
  lead = "" \/ lead = " " ->
  assign_cookie
    (CookieHelper.name_of (lead +:+ pair_of c)
     +:+ "=; expires=Thu, 01 Jan 1970 00:00:00 UTC; path=/;") st
  = removal (name c) st.
Proof.
  intros Hn Hv Hlead.
  destruct (CookieJarFacts.name_ok_parts _ Hn) as (Hne & _ & Heq & Hspace).
  assert (Hname : CookieHelper.name_of (lead +:+ pair_of c) = lead +:+ name c).
  { unfold CookieHelper.name_of. rewrite (pair_of_named c Hne).
    rewrite <- SplitFacts.append_assoc.
    rewrite CookieStrings.cut_eq_name; [reflexivity|].
    rewrite SplitFacts.free_of_app, Heq.
    destruct Hlead as [-> | ->]; reflexivity. }
  rewrite Hname. now apply CookieJarFacts.assign_epoch.
Qed.

End CookieLoopFacts.

Module ClearedJarFacts.

Import Browser.

Lemma filter_none {A : Type} (f : A -> bool) (l : list A) :
  (forall x, f x = false) -> List.filter f l = [].
Proof.
  intros H. induction l as [|x l IH]; [reflexivity|]. simpl. now rewrite H.
Qed.

Lemma no_readable_left (jar : list cookie) :
  List.filter readable (List.filter (fun c => negb (readable c)) jar) = [].
Proof.
  rewrite CookieLoopFacts.filter_filter_and. apply filter_none.
  intros c. now destruct (readable c).
Qed.

End ClearedJarFacts.

(** X15: in a jar with one cookie per name and path, whose script-readable
    cookies have plain names and values, the routine of the guest role, run
    with a date string without [;], removes exactly the cookies a script can
    read at path [/] and leaves the others; it empties local storage, and
    [document.cookie] reads empty afterwards. *)
Theorem guestUser_clears_readable_cookies (utc : string) (st : Browser.state) :
  Browser.jar_ok (Browser.cookies st) ->
  Str.free_of ";" utc = true ->
  Browser.cookies (Roles.guestUser utc st)
  = List.filter (fun c => negb (Browser.readable c)) (Browser.cookies st) /\
  Browser.localStorage (Roles.guestUser utc st) = ∅ /\
  Browser.document_cookie (Roles.guestUser utc st) = "".
Proof.
  intros Hjar Hutc. unfold Roles.guestUser, Roles.clear_authentication.
  rewrite (CookieLoopFacts.clear_loop _ (Browser.localStorage_clear st) Hjar).
  - cbn [Browser.cookies Browser.localStorage Browser.localStorage_clear].
    split; [reflexivity|]. split; [reflexivity|].
    unfold Browser.document_cookie. cbn [Browser.cookies].
    now rewrite ClearedJarFacts.no_readable_left.
  - intros c lead st' Hn Hv Hlead.
    now apply CookieLoopFacts.guest_body.
  - intros st'. reflexivity.
Qed.

Lemma guestUser_clears_readable_cookies_witness :
  Browser.cookies
    (Roles.guestUser "Tue, 03 Nov 2026 08:31:00 GMT"
       {| Browser.localStorage := {[ "theme" := "dark" ]};
          Browser.cookies :=
            [{| Browser.name := "sid"; Browser.value := "s3cr3t";
                Browser.path := "/"; Browser.httpOnly := true |};
             {| Browser.name := "sidebar"; Browser.value := "open";
                Browser.path := "/"; Browser.httpOnly := false |};
             {| Browser.name := "lang"; Browser.value := "en=US";
                Browser.path := "/"; Browser.httpOnly := false |}] |})
  = List.filter (fun c => negb (Browser.readable c))
      [{| Browser.name := "sid"; Browser.value := "s3cr3t";
          Browser.path := "/"; Browser.httpOnly := true |};
       {| Browser.name := "sidebar"; Browser.value := "open";
          Browser.path := "/"; Browser.httpOnly := false |};
       {| Browser.name := "lang"; Browser.value := "en=US";
          Browser.path := "/"; Browser.httpOnly := false |}] /\
  Browser.localStorage
    (Roles.guestUser "Tue, 03 Nov 2026 08:31:00 GMT"
       {| Browser.localStorage := {[ "theme" := "dark" ]};
          Browser.cookies :=
            [{| Browser.name := "sid"; Browser.value := "s3cr3t";
                Browser.path := "/"; Browser.httpOnly := true |};
             {| Browser.name := "sidebar"; Browser.value := "open";
                Browser.path := "/"; Browser.httpOnly := false |};
             {| Browser.name := "lang"; Browser.value := "en=US";
                Browser.path := "/"; Browser.httpOnly := false |}] |}) = ∅ /\
  Browser.document_cookie
    (Roles.guestUser "Tue, 03 Nov 2026 08:31:00 GMT"
       {| Browser.localStorage := {[ "theme" := "dark" ]};
          Browser.cookies :=
            [{| Browser.name := "sid"; Browser.value := "s3cr3t";
                Browser.path := "/"; Browser.httpOnly := true |};
             {| Browser.name := "sidebar"; Browser.value := "open";
                Browser.path := "/"; Browser.httpOnly := false |};
             {| Browser.name := "lang"; Browser.value := "en=US";
                Browser.path := "/"; Browser.httpOnly := false |}] |}) = "".
Proof.
  apply (guestUser_clears_readable_cookies "Tue, 03 Nov 2026 08:31:00 GMT").
  - split.
    + apply (bool_decide_unpack _). vm_compute. exact I.
    + repeat (constructor;
              [vm_compute; intros; first [discriminate | split; reflexivity]|]).
      constructor.
  - reflexivity.
Defined.

(** X16: [logout] empties local storage and sends the browser to the home
    page, and every [httpOnly] cookie, the session cookie of the auth
    server among them, is still in the jar afterwards. *)
Theorem logout_keeps_httpOnly_cookies
  (utc : string) (st : Browser.state) (c : BasePage.controller) :
  Browser.localStorage (fst (Session.logout utc st c)) = ∅ /\
  BasePage.href (snd (Session.logout utc st c)) = "http://localhost:3001/" /\
  List.filter Browser.httpOnly (Browser.cookies (fst (Session.logout utc st c)))
  = List.filter Browser.httpOnly (Browser.cookies st).
Proof.
  unfold Session.logout. cbn [fst snd].
  destruct (RolesFacts.guestUser_keeps_httpOnly utc st) as [Hls Hjar].
  unfold Roles.guestUser in Hls, Hjar. auto.
Qed.

(** X17: [clearAllCookies] never touches local storage nor an [httpOnly]
    cookie; in a jar with one cookie per name and path whose script-readable
    cookies have plain names and values, it removes exactly the cookies a
    script can read at path [/], and [getCookies] reads empty afterwards. *)
Theorem clearAllCookies_clears_readable_cookies (st : Browser.state) :
  (Browser.localStorage (CookieHelper.clearAllCookies st) = Browser.localStorage st /\
   List.filter Browser.httpOnly (Browser.cookies (CookieHelper.clearAllCookies st))
   = List.filter Browser.httpOnly (Browser.cookies st)) /\
  (Browser.jar_ok (Browser.cookies st) ->
   Browser.cookies (CookieHelper.clearAllCookies st)
   = List.filter (fun c => negb (Browser.readable c)) (Browser.cookies st) /\
   CookieHelper.getCookies (CookieHelper.clearAllCookies st) = "").
Proof.
  split.
  - unfold CookieHelper.clearAllCookies.
    apply (RolesFacts.fold_assign_keeps
             (fun cookie =>
                CookieHelper.name_of cookie
                +:+ "=; expires=Thu, 01 Jan 1970 00:00:00 UTC; path=/;")).
  - intros Hjar. unfold CookieHelper.getCookies, CookieHelper.clearAllCookies.
    rewrite (CookieLoopFacts.clear_loop _ st Hjar).
    + cbn [Browser.cookies]. split; [reflexivity|].
      unfold Browser.document_cookie. cbn [Browser.cookies].
      now rewrite ClearedJarFacts.no_readable_left.
    + intros c lead st' Hn Hv Hlead. now apply CookieLoopFacts.epoch_body.
    + intros st'. reflexivity.
Qed.

Lemma clearAllCookies_clears_readable_cookies_witness :
  Browser.cookies
    (CookieHelper.clearAllCookies
       {| Browser.localStorage := {[ "theme" := "dark" ]};
          Browser.cookies :=
            [{| Browser.name := "sid"; Browser.value := "s3cr3t";
                Browser.path := "/"; Browser.httpOnly := true |};
             {| Browser.name := "sidebar"; Browser.value := "open";
                Browser.path := "/"; Browser.httpOnly := false |};
             {| Browser.name := "lang"; Browser.value := "en=US";
                Browser.path := "/"; Browser.httpOnly := false |}] |})
  = List.filter (fun c => negb (Browser.readable c))
      [{| Browser.name := "sid"; Browser.value := "s3cr3t";
          Browser.path := "/"; Browser.httpOnly := true |};
       {| Browser.name := "sidebar"; Browser.value := "open";
          Browser.path := "/"; Browser.httpOnly := false |};
       {| Browser.name := "lang"; Browser.value := "en=US";
          Browser.path := "/"; Browser.httpOnly := false |}] /\
  CookieHelper.getCookies
    (CookieHelper.clearAllCookies
       {| Browser.localStorage := {[ "theme" := "dark" ]};
          Browser.cookies :=
            [{| Browser.name := "sid"; Browser.value := "s3cr3t";
                Browser.path := "/"; Browser.httpOnly := true |};
             {| Browser.name := "sidebar"; Browser.value := "open";
                Browser.path := "/"; Browser.httpOnly := false |};
             {| Browser.name := "lang"; Browser.value := "en=US";
                Browser.path := "/"; Browser.httpOnly := false |}] |}) = "".
Proof.
  apply (proj2 (clearAllCookies_clears_readable_cookies
                  {| Browser.localStorage := {[ "theme" := "dark" ]};
                     Browser.cookies :=
                       [{| Browser.name := "sid"; Browser.value := "s3cr3t";
                           Browser.path := "/"; Browser.httpOnly := true |};
                        {| Browser.name := "sidebar"; Browser.value := "open";
                           Browser.path := "/"; Browser.httpOnly := false |};
                        {| Browser.name := "lang"; Browser.value := "en=US";
                           Browser.path := "/"; Browser.httpOnly := false |}] |})).
  split.
  - apply (bool_decide_unpack _). vm_compute. exact I.
  - repeat (constructor;
            [vm_compute; intros; first [discriminate | split; reflexivity]|]).
    constructor.
Defined.

(** ** [LoginPage]: filling and submitting the sign-up form *)

(** X18: [signUp(name, email, password)] does what [fillSignUpForm] with the
    same values followed by [submitForm] does, on every page and for every
    input, failures included. *)
Theorem signUp_is_fill_then_submit
  (valid_email : string -> bool) (accepts : string -> string -> string -> bool)
  (submit_sign_in : LoginPage.page -> LoginPage.page)
  (name email password : string) (pg : LoginPage.page) :
  LoginPage.signUp valid_email accepts name email password pg
  = LoginPage.fillSignUpForm name email password pg
    ≫= LoginPage.submitForm valid_email accepts submit_sign_in.
Proof.
  unfold LoginPage.signUp, LoginPage.fillSignUpForm, LoginPage.submitForm,
    LoginPage.typeText, LoginPage.check_text, LoginPage.switchToSignUp, LoginPage.isOnSignInForm,
    LoginPage.isOnSignUpForm, LoginPage.on_login, LoginPage.click_switchToSignUp.
  destruct pg as [path show n e p errors]. cbn.
  destruct (bool_decide (path = "/login")) eqn:Hpath, show,
    (Str.is_empty name), (Str.is_empty email), (Str.is_empty password);
    repeat (progress (cbn; rewrite ?Hpath)); reflexivity.
Qed.

(** X19: on the login route, [fillSignUpForm] with three non-empty values
    succeeds whichever form is shown, ends on the sign-up form and leaves
    the three values in the inputs; with an empty name it fails, an empty
    text being refused by [typeText]. *)
Theorem fillSignUpForm_fills (name email password : string) (pg : LoginPage.page) :
  LoginPage.pathname pg = "/login" ->
  (name <> "" -> email <> "" -> password <> "" ->
   exists pg' : LoginPage.page,
     LoginPage.fillSignUpForm name email password pg = Ok pg' /\
     LoginPage.isOnSignUpForm pg' = true /\
     LoginPage.nameInput pg' = name /\
     LoginPage.emailInput pg' = email /\
     LoginPage.passwordInput pg' = password) /\
  LoginPage.fillSignUpForm "" email password pg = Throw Selector.empty_text.
Proof.
  intros Hpath. split.
  - intros Hn He Hp. now apply LoginFacts.fillSignUpForm_fields.
  - reflexivity.
Qed.

Lemma fillSignUpForm_fills_witness :
  (exists pg' : LoginPage.page,
     LoginPage.fillSignUpForm "Test User" "invalid-email" "TestPass123!"
       {| LoginPage.pathname := "/login"; LoginPage.showSignIn := true;
          LoginPage.nameInput := ""; LoginPage.emailInput := "old@example.com";
          LoginPage.passwordInput := ""; LoginPage.errorMessage := [] |} = Ok pg' /\
     LoginPage.isOnSignUpForm pg' = true /\
     LoginPage.nameInput pg' = "Test User" /\
     LoginPage.emailInput pg' = "invalid-email" /\
     LoginPage.passwordInput pg' = "TestPass123!") /\
  LoginPage.fillSignUpForm "" "invalid-email" "TestPass123!"
    {| LoginPage.pathname := "/login"; LoginPage.showSignIn := true;
       LoginPage.nameInput := ""; LoginPage.emailInput := "old@example.com";
       LoginPage.passwordInput := ""; LoginPage.errorMessage := [] |}
  = Throw Selector.empty_text.
Proof.
  destruct (fillSignUpForm_fills "Test User" "invalid-email" "TestPass123!"
              {| LoginPage.pathname := "/login"; LoginPage.showSignIn := true;
                 LoginPage.nameInput := ""; LoginPage.emailInput := "old@example.com";
                 LoginPage.passwordInput := ""; LoginPage.errorMessage := [] |}
              eq_refl) as [Hfill Hempty].
  split; [|reflexivity].
  apply Hfill; discriminate.
Defined.

(** ** [HomePage] *)

Module HomeFacts.

Import HomePage.

Lemma headings_loop_collects (d : document) (remaining : nat) :
  forall (i : nat) (titles : list string),
    i + remaining <= length (h2 d) ->
    headings_loop remaining i titles d
    = Ok (titles ++ take remaining (drop i (h2 d))).
Proof.
  induction remaining as [|remaining IH]; intros i titles Hle.
  - simpl. now rewrite app_nil_r.
  - destruct (lookup_lt_is_Some_2 (h2 d) i ltac:(lia)) as [txt Htxt].
    cbn [headings_loop]. unfold Selector.nth. rewrite Htxt.
    cbn [Selector.first mbind result_bind]. rewrite IH by lia.
    rewrite (drop_S (h2 d) txt i Htxt). cbn [take].
    now rewrite <- app_assoc.
Qed.

End HomeFacts.

(** X20: [waitForApiReady()] returns without an error exactly when the
    status indicator is in the document and [isApiConnected()] returns
    true. *)
Theorem waitForApiReady_iff_connected (d : HomePage.document) :
  HomePage.waitForApiReady d = Ok () <->
  Selector.exists_ (HomePage.apiStatusIndicator d) = true /\
  HomePage.isApiConnected d = Ok true.
Proof.
  unfold HomePage.waitForApiReady, HomePage.isApiConnected, HomePage.waitForElement.
  destruct (Selector.exists_ (HomePage.apiStatusIndicator d)); cbn.
  - destruct (HomePage.getApiStatus d) as [status|msg]; cbn.
    + destruct (Str.includes "Connected" status); cbn.
      * split; auto.
      * split; [discriminate|]. intros [_ H]. discriminate.
    + split; [discriminate|]. intros [_ H]. discriminate.
  - split; [discriminate|]. intros [H _]. discriminate.
Qed.

(** X21: [getSectionHeadings()] returns the text of every [h2], in document
    order. *)
Theorem getSectionHeadings_lists_h2 (d : HomePage.document) :
  HomePage.getSectionHeadings d = Ok (HomePage.h2 d).
Proof.
  unfold HomePage.getSectionHeadings, Selector.count.
  rewrite HomeFacts.headings_loop_collects by lia.
  now rewrite drop_0, firstn_all.
Qed.

(** ** The guest role as [t.useRole] runs it *)

Module RoleFacts.

Import Browser.






End RoleFacts.


